(** * HealthcareDatabase: a shallow embedding of [healthcare_db.py]

    The Python class [HealthcareDatabase] is a thin layer of SQL statements
    over an SQLite connection.  The embedding has two layers:

    - [Module Sqlite]: the part of the storage engine the statements rely on
      (storage classes, column affinity, the ordering of values, [LIKE],
      the clock behind [datetime('now', ...)]);
    - the schema of [_create_tables] and one definition per method of the
      class, each following the SQL text of that method.

    Scope of the model.  Python [str] arguments are [string]s holding the
    UTF-8 encoding of the text, [None] is the absent [option]; [int]
    arguments are [Z] and are taken to fit the engine's signed 64-bit
    INTEGER class.  Text is free of NUL characters and a [LIKE] pattern is
    within the engine's length limit.  A REAL value is kept as the exact
    decimal it was written as; the engine rounds it to binary64.  Failures
    of the storage medium itself (I/O, a full disk) are not modelled. *)

From Stdlib Require Import ZArith QArith List String Ascii Bool Lia.
From Stdlib Require Import Permutation Sorted DecimalString.
Import ListNotations.

Local Open Scope Z_scope.

(* ================================================================== *)
(** ** The storage engine *)

Module Sqlite.

(** Storage classes that can arise from [None], [int] and [str] arguments.
    The same four shapes are what the Python binding hands back
    ([None], [int], [float], [str]). *)
Inductive value : Type :=
| VNull
| VInt (z : Z)
| VReal (q : Q)
| VText (s : string).

(** *** Characters *)

Definition code (c : ascii) : Z := Z.of_N (N_of_ascii c).

Definition is_digit (c : ascii) : bool := (48 <=? code c) && (code c <=? 57).

(** [sqlite3Isspace]: space, and the control characters 9 to 13. *)
Definition is_space (c : ascii) : bool :=
  (code c =? 32) || ((9 <=? code c) && (code c <=? 13)).

Definition chars (s : string) : list ascii := list_ascii_of_string s.

(** *** NUMERIC affinity

    A column declared [DATE] or [DATETIME] has NUMERIC affinity: text that is
    a well-formed integer or real literal is stored as a number, any other
    text is stored unchanged.  [scan_number] follows the grammar accepted by
    the engine's text-to-number routine: blanks, a sign, digits, an optional
    fraction, an optional exponent, blanks. *)

Fixpoint skip_spaces (s : list ascii) : list ascii :=
  match s with
  | c :: s' => if is_space c then skip_spaces s' else s
  | [] => []
  end.

(** Reads a run of digits: the number read so far, how many digits were
    read, and the rest of the input. *)
Fixpoint scan_digits (s : list ascii) (acc : Z) (n : nat) : Z * nat * list ascii :=
  match s with
  | c :: s' => if is_digit c then scan_digits s' (10 * acc + (code c - 48)) (S n)
               else (acc, n, s)
  | [] => (acc, n, [])
  end.

Definition scan_sign (s : list ascii) : bool * list ascii :=
  match s with
  | "-"%char :: s' => (true, s')
  | "+"%char :: s' => (false, s')
  | _ => (false, s)
  end.

(** A scanned literal: its digits as one integer [mant], scaled by
    [10 ^ exp10]; [plain] says that neither a fraction nor an exponent was
    written. *)
Record literal : Type := {
  negative : bool;
  mant : Z;
  exp10 : Z;
  plain : bool
}.

Definition scan_exponent (s : list ascii) : option (Z * list ascii) :=
  match s with
  | c :: s' =>
      if (code c =? 101) || (code c =? 69) then
        let '(eneg, s1) := scan_sign s' in
        let '(e, n, s2) := scan_digits s1 0 0%nat in
        match n with
        | O => None
        | S _ => Some ((if eneg then - e else e), s2)
        end
      else Some (0, s)
  | [] => Some (0, [])
  end.

Definition has_exponent (s : list ascii) : bool :=
  match s with
  | c :: _ => (code c =? 101) || (code c =? 69)
  | [] => false
  end.

Definition scan_number (s : string) : option literal :=
  let s0 := skip_spaces (chars s) in
  let '(neg, s1) := scan_sign s0 in
  let '(ip, ni, s2) := scan_digits s1 0 0%nat in
  let '(m, nf, s3, dot) :=
    match s2 with
    | "."%char :: s2' =>
        let '(m, nf, s3) := scan_digits s2' ip 0%nat in (m, nf, s3, true)
    | _ => (ip, 0%nat, s2, false)
    end in
  match (ni + nf)%nat with
  | O => None
  | S _ =>
      match scan_exponent s3 with
      | None => None
      | Some (e, s4) =>
          match skip_spaces s4 with
          | [] => Some {| negative := neg; mant := m;
                          exp10 := e - Z.of_nat nf;
                          plain := negb dot && negb (has_exponent s3) |}
          | _ :: _ => None
          end
      end
  end.

Definition literal_value (l : literal) : Q :=
  let m := if negative l then - mant l else mant l in
  if 0 <=? exp10 l then inject_Z (m * 10 ^ exp10 l)
  else Qmake m (Z.to_pos (10 ^ (- exp10 l))).

Definition min_int64 : Z := - 2 ^ 63.
Definition max_int64 : Z := 2 ^ 63 - 1.

Definition is_integral (q : Q) : bool := (Qnum q mod Zpos (Qden q) =? 0).
Definition integral_part (q : Q) : Z := Qnum q / Zpos (Qden q).

(** What a NUMERIC column stores for a text argument.  A plain integer
    literal within the 64-bit range becomes that INTEGER; any other literal
    becomes a REAL, which is then stored as an INTEGER when it is whole and
    strictly inside the 64-bit range. *)
Definition numeric_affinity (s : string) : value :=
  match scan_number s with
  | None => VText s
  | Some l =>
      let q := literal_value l in
      let z := integral_part q in
      if is_integral q &&
         ((plain l && (min_int64 <=? z) && (z <=? max_int64))
          || ((min_int64 <? z) && (z <? max_int64)))
      then VInt z
      else VReal q
  end.


Definition store_numeric (a : option string) : value :=
  match a with
  | None => VNull
  | Some s => numeric_affinity s
  end.

(** NUMERIC affinity applied to an operand that is compared with a NUMERIC
    column. *)
Definition as_numeric (v : value) : value :=
  match v with
  | VText s => numeric_affinity s
  | _ => v
  end.

(** *** The order of values

    [NULL] sorts before numbers, numbers before text; numbers compare by
    value, text compares byte by byte (the BINARY collation), a proper
    prefix first. *)

Fixpoint bytes_leb (a b : list ascii) : bool :=
  match a, b with
  | [], _ => true
  | _ :: _, [] => false
  | x :: a', y :: b' =>
      if code x <? code y then true
      else if code y <? code x then false
      else bytes_leb a' b'
  end.

Definition text_leb (s t : string) : bool := bytes_leb (chars s) (chars t).

Definition number (v : value) : Q :=
  match v with
  | VInt z => inject_Z z
  | VReal q => q
  | _ => 0%Q
  end.

(** The order used by [ORDER BY]. *)
Definition value_leb (a b : value) : bool :=
  match a, b with
  | VNull, _ => true
  | _, VNull => false
  | VText s, VText t => text_leb s t
  | VText _, _ => false
  | _, VText _ => true
  | _, _ => Qle_bool (number a) (number b)
  end.

(** [a <= b] inside a [WHERE] clause: a comparison with [NULL] is unknown,
    and a row is kept only when the condition is true. *)
Definition sql_le (a b : value) : bool :=
  match a, b with
  | VNull, _ | _, VNull => false
  | _, _ => value_leb a b
  end.

(** [x BETWEEN lo AND hi] for a NUMERIC column [x]: both bounds receive
    NUMERIC affinity before they are compared. *)
Definition between (x lo hi : value) : bool :=
  sql_le (as_numeric lo) x && sql_le x (as_numeric hi).

(** [ORDER BY]: rows are sorted on a key.  Rows with equal keys come out in
    an order the engine does not promise; here they keep the order of the
    table. *)
Section OrderBy.
Context {R : Type} (leb : R -> R -> bool).

Fixpoint insert_sorted (x : R) (l : list R) : list R :=
  match l with
  | [] => [x]
  | y :: l' => if leb x y then x :: l else y :: insert_sorted x l'
  end.

Fixpoint sort_rows (l : list R) : list R :=
  match l with
  | [] => []
  | x :: l' => insert_sorted x (sort_rows l')
  end.
End OrderBy.

Definition order_by_asc {R : Type} (key : R -> value) : list R -> list R :=
  sort_rows (fun a b => value_leb (key a) (key b)).

Definition order_by_desc {R : Type} (key : R -> value) : list R -> list R :=
  sort_rows (fun a b => value_leb (key b) (key a)).

(** *** LIKE

    The pattern and the text are read one UTF-8 character at a time: a byte
    of [0xC0] or more starts a character that takes in every continuation
    byte ([10xxxxxx]) after it; any other byte is a character by itself. *)

Definition uchar : Type := list ascii.

Definition is_continuation (c : ascii) : bool :=
  (128 <=? code c) && (code c <? 192).

Fixpoint take_continuations (l : list uchar) : list ascii * list uchar :=
  match l with
  | [c] :: l' =>
      if is_continuation c
      then let '(bs, rest) := take_continuations l' in (c :: bs, rest)
      else ([], l)
  | _ => ([], l)
  end.

Fixpoint utf8_chars (s : list ascii) : list uchar :=
  match s with
  | [] => []
  | c :: s' =>
      if 192 <=? code c
      then let '(bs, rest) := take_continuations (utf8_chars s') in (c :: bs) :: rest
      else [c] :: utf8_chars s'
  end.

(** [sqlite3Tolower] on a code below 128. *)
Definition ascii_lower (n : Z) : Z :=
  if (65 <=? n) && (n <=? 90) then n + 32 else n.

(** Two characters match when they are the same, or when both are ASCII and
    differ only in case. *)
Definition uchar_match (c d : uchar) : bool :=
  match c, d with
  | [x], [y] =>
      (code x =? code y)
      || ((code x <? 128) && (code y <? 128)
          && (ascii_lower (code x) =? ascii_lower (code y)))
  | _, _ => if list_eq_dec ascii_dec c d then true else false
  end.

Definition is_percent (c : uchar) : bool :=
  match c with [x] => code x =? 37 | _ => false end.

Definition is_underscore (c : uchar) : bool :=
  match c with [x] => code x =? 95 | _ => false end.

(** [%] stands for any run of characters, [_] for exactly one. *)
Fixpoint like_chars (p s : list uchar) : bool :=
  match p with
  | [] => match s with [] => true | _ :: _ => false end
  | c :: p' =>
      if is_percent c then
        (fix any_run (s : list uchar) : bool :=
           like_chars p' s
           || match s with [] => false | _ :: s' => any_run s' end) s
      else
        match s with
        | [] => false
        | d :: s' => (is_underscore c || uchar_match c d) && like_chars p' s'
        end
  end.

(** [text LIKE pattern], true or not true; a [NULL] text is never true. *)
Definition like (text : option string) (pattern : string) : bool :=
  match text with
  | None => false
  | Some s => like_chars (utf8_chars (chars pattern)) (utf8_chars (chars s))
  end.

(** *** The clock

    [datetime('now')] and [datetime('now', modifier)] as the engine evaluates
    them for one statement: text of the form [YYYY-MM-DD HH:MM:SS], or
    [NULL] for a modifier it cannot read. *)
Record clock : Type := {
  datetime_now : value;
  datetime_now_shifted : string -> value
}.

End Sqlite.

Import Sqlite.


(* ================================================================== *)
(** ** The schema of [_create_tables]

    Columns declared [TEXT] hold [NULL] or text ([option string]); columns
    declared [DATE] or [DATETIME] have NUMERIC affinity and hold any
    [value]; the [INTEGER] keys are [Z]. *)

Module Patients.
Record row : Type := {
  patient_id : Z;
  first_name : option string;
  last_name : option string;
  date_of_birth : value;
  gender : option string;
  phone : option string;
  email : option string;
  address : option string;
  blood_type : option string
}.
End Patients.

Module MedicalRecords.
Record row : Type := {
  record_id : Z;
  patient_id : Z;
  visit_date : value;
  diagnosis : option string;
  treatment : option string;
  medications : option string;
  notes : option string
}.
End MedicalRecords.

Module Appointments.
Record row : Type := {
  appointment_id : Z;
  patient_id : Z;
  appointment_date : value;
  purpose : option string;
  status : option string
}.
End Appointments.

(** A table with an [AUTOINCREMENT] key: its rows in insertion order and the
    largest key handed out so far (the table's entry in [sqlite_sequence]). *)
Record table (R : Type) : Type := {
  rows : list R;
  seq : Z
}.
Arguments rows {R} _.
Arguments seq {R} _.

(** A connection: the [foreign_keys] pragma of the connection, and the three
    tables of the file, each of which may not exist yet. *)
Record db : Type := {
  foreign_keys : bool;
  patients : option (table Patients.row);
  medical_records : option (table MedicalRecords.row);
  appointments : option (table Appointments.row)
}.

(** The rows of a table, none when the table does not exist. *)
Definition rows_of {R : Type} (t : option (table R)) : list R :=
  match t with
  | Some t => rows t
  | None => []
  end.

Inductive error : Type :=
| IntegrityError      (* a constraint failed; a subclass of [sqlite3.Error] *)
| OperationalError.   (* no such table; a subclass of [sqlite3.Error] *)

(** What a method call does: it returns a value or lets an exception
    through. *)
Inductive outcome (A : Type) : Type :=
| Returned (a : A)
| Raised (e : error).
Arguments Returned {A} _.
Arguments Raised {A} _.

(** What one statement does: it changes the database and reports a number
    ([lastrowid], [rowcount]), or fails and changes nothing. *)
Inductive exec : Type :=
| Done (d : db) (n : Z)
| Failed (e : error).

(** [sqlite3.connect]: the pragma [foreign_keys] of a new connection is off;
    nothing in the class turns it on. *)
Definition connect (file : db) : db :=
  {| foreign_keys := false;
     patients := patients file;
     medical_records := medical_records file;
     appointments := appointments file |}.

(** A file with no table in it. *)
Definition new_file : db :=
  {| foreign_keys := false;
     patients := None; medical_records := None; appointments := None |}.

(** [CREATE TABLE IF NOT EXISTS] *)
Definition create_table_if_not_exists {R : Type} (t : option (table R))
  : option (table R) :=
  match t with
  | Some _ => t
  | None => Some {| rows := []; seq := 0 |}
  end.

Definition _create_tables (d : db) : db :=
  {| foreign_keys := foreign_keys d;
     patients := create_table_if_not_exists (patients d);
     medical_records := create_table_if_not_exists (medical_records d);
     appointments := create_table_if_not_exists (appointments d) |}.

(** [__init__] *)
Definition HealthcareDatabase (file : db) : db := _create_tables (connect file).

(** *** Column constraints *)

Definition genders : list string := ["Male"; "Female"; "Other"]%string.
Definition blood_types : list string :=
  ["A+"; "A-"; "B+"; "B-"; "AB+"; "AB-"; "O+"; "O-"]%string.
Definition statuses : list string := ["Scheduled"; "Completed"; "Cancelled"]%string.

(** [CHECK (col IN (...))]: a [NULL] makes the condition unknown, and only a
    false condition is a violation. *)
Definition check_in (allowed : list string) (v : option string) : bool :=
  match v with
  | None => true
  | Some s => existsb (String.eqb s) allowed
  end.

(** [NOT NULL] *)
Definition not_null {A : Type} (v : option A) : bool :=
  match v with
  | Some _ => true
  | None => false
  end.

Definition has_email (e : string) (p : Patients.row) : bool :=
  match Patients.email p with
  | Some e' => String.eqb e e'
  | None => false
  end.

(** [UNIQUE]: no other row has the same text; [NULL]s never collide. *)
Definition unique_email (e : option string) (l : list Patients.row) : bool :=
  match e with
  | None => true
  | Some e => negb (existsb (has_email e) l)
  end.

Definition patient_exists (d : db) (id : Z) : bool :=
  existsb (fun p => Patients.patient_id p =? id) (rows_of (patients d)).

(** [FOREIGN KEY (patient_id) REFERENCES patients (patient_id)]: looked at
    only when the connection's [foreign_keys] pragma is on. *)
Definition foreign_key_ok (d : db) (id : Z) : bool :=
  negb (foreign_keys d) || patient_exists d id.

(** [INTEGER PRIMARY KEY AUTOINCREMENT]: one more than the largest key that
    was ever in the table. *)
Definition next_rowid (ids : list Z) (s : Z) : Z :=
  Z.max s (fold_right Z.max 0 ids) + 1.

(* ================================================================== *)
(** ** The methods of [HealthcareDatabase] *)

Definition insert_patient
  (first_name last_name date_of_birth gender phone email address blood_type
     : option string) (d : db) : exec :=
  match patients d with
  | None => Failed OperationalError
  | Some t =>
      if not_null first_name && not_null last_name && not_null date_of_birth
         && check_in genders gender && check_in blood_types blood_type
         && unique_email email (rows t)
      then
        let id := next_rowid (map Patients.patient_id (rows t)) (seq t) in
        let r := {| Patients.patient_id := id;
                    Patients.first_name := first_name;
                    Patients.last_name := last_name;
                    Patients.date_of_birth := store_numeric date_of_birth;
                    Patients.gender := gender;
                    Patients.phone := phone;
                    Patients.email := email;
                    Patients.address := address;
                    Patients.blood_type := blood_type |} in
        Done {| foreign_keys := foreign_keys d;
                patients := Some {| rows := rows t ++ [r]; seq := id |};
                medical_records := medical_records d;
                appointments := appointments d |} id
      else Failed IntegrityError
  end.

(** [add_patient]: only [sqlite3.IntegrityError] is caught. *)
Definition add_patient
  (first_name last_name date_of_birth gender phone email address blood_type
     : option string) (d : db) : db * outcome Z :=
  match insert_patient first_name last_name date_of_birth gender
          phone email address blood_type d with
  | Done d' id => (d', Returned id)
  | Failed IntegrityError => (d, Returned (-1))
  | Failed e => (d, Raised e)
  end.

Definition insert_medical_record
  (patient_id : Z) (visit_date diagnosis treatment medications notes
     : option string) (d : db) : exec :=
  match medical_records d with
  | None => Failed OperationalError
  | Some t =>
      if not_null visit_date && foreign_key_ok d patient_id
      then
        let id := next_rowid (map MedicalRecords.record_id (rows t)) (seq t) in
        let r := {| MedicalRecords.record_id := id;
                    MedicalRecords.patient_id := patient_id;
                    MedicalRecords.visit_date := store_numeric visit_date;
                    MedicalRecords.diagnosis := diagnosis;
                    MedicalRecords.treatment := treatment;
                    MedicalRecords.medications := medications;
                    MedicalRecords.notes := notes |} in
        Done {| foreign_keys := foreign_keys d;
                patients := patients d;
                medical_records := Some {| rows := rows t ++ [r]; seq := id |};
                appointments := appointments d |} id
      else Failed IntegrityError
  end.

(** [add_medical_record]: every [sqlite3.Error] is caught. *)
Definition add_medical_record
  (patient_id : Z) (visit_date diagnosis treatment medications notes
     : option string) (d : db) : db * outcome Z :=
  match insert_medical_record patient_id visit_date diagnosis treatment
          medications notes d with
  | Done d' id => (d', Returned id)
  | Failed _ => (d, Returned (-1))
  end.

Definition insert_appointment
  (patient_id : Z) (appointment_date purpose status : option string) (d : db)
  : exec :=
  match appointments d with
  | None => Failed OperationalError
  | Some t =>
      if not_null appointment_date && check_in statuses status
         && foreign_key_ok d patient_id
      then
        let id := next_rowid (map Appointments.appointment_id (rows t)) (seq t) in
        let r := {| Appointments.appointment_id := id;
                    Appointments.patient_id := patient_id;
                    Appointments.appointment_date := store_numeric appointment_date;
                    Appointments.purpose := purpose;
                    Appointments.status := status |} in
        Done {| foreign_keys := foreign_keys d;
                patients := patients d;
                medical_records := medical_records d;
                appointments := Some {| rows := rows t ++ [r]; seq := id |} |} id
      else Failed IntegrityError
  end.

(** [schedule_appointment]; the caller's default for [status] is
    ["Scheduled"]. *)
Definition schedule_appointment
  (patient_id : Z) (appointment_date purpose status : option string) (d : db)
  : db * outcome Z :=
  match insert_appointment patient_id appointment_date purpose status d with
  | Done d' id => (d', Returned id)
  | Failed _ => (d, Returned (-1))
  end.

(** [get_patient_by_id]: the first row of the result, or [None].  The row is
    handed back as a dictionary with the nine columns as keys, which is the
    record [Patients.row] again. *)
Definition get_patient_by_id (patient_id : Z) (d : db)
  : outcome (option Patients.row) :=
  match patients d with
  | None => Raised OperationalError
  | Some t =>
      Returned (find (fun p => Patients.patient_id p =? patient_id) (rows t))
  end.

(** [if name:] — [None] and the empty string are both false. *)
Definition truthy (a : option string) : bool :=
  match a with
  | None => false
  | Some s => negb (String.eqb s "")
  end.

Definition param (a : option string) : string :=
  match a with
  | Some s => s
  | None => ""
  end.

(** [search_patients]: the query starts as [WHERE 1=1] and gains one [AND]
    clause for each argument that is true. *)
Definition search_patients (name gender : option string) (d : db)
  : outcome (list Patients.row) :=
  let name_clause :=
    if truthy name then
      let pattern := ("%" ++ param name ++ "%")%string in
      [fun p => like (Patients.first_name p) pattern
                || like (Patients.last_name p) pattern]
    else [] in
  let gender_clause :=
    if truthy gender then
      [fun p => match Patients.gender p with
                | Some g => String.eqb g (param gender)
                | None => false
                end]
    else [] in
  let query := (name_clause ++ gender_clause)%list in
  match patients d with
  | None => Raised OperationalError
  | Some t => Returned (filter (fun p => forallb (fun c => c p) query) (rows t))
  end.

(** The dictionaries of [get_patient_medical_history]: the row without its
    [patient_id]. *)
Module History.
Record entry : Type := {
  record_id : Z;
  visit_date : value;
  diagnosis : option string;
  treatment : option string;
  medications : option string;
  notes : option string
}.
End History.

Definition history_entry (r : MedicalRecords.row) : History.entry :=
  {| History.record_id := MedicalRecords.record_id r;
     History.visit_date := MedicalRecords.visit_date r;
     History.diagnosis := MedicalRecords.diagnosis r;
     History.treatment := MedicalRecords.treatment r;
     History.medications := MedicalRecords.medications r;
     History.notes := MedicalRecords.notes r |}.

Definition get_patient_medical_history (patient_id : Z) (d : db)
  : outcome (list History.entry) :=
  match medical_records d with
  | None => Raised OperationalError
  | Some t =>
      Returned
        (map history_entry
           (order_by_desc MedicalRecords.visit_date
              (filter (fun r => MedicalRecords.patient_id r =? patient_id) (rows t))))
  end.

(** The dictionaries of [get_upcoming_appointments]. *)
Module Upcoming.
Record entry : Type := {
  appointment_id : Z;
  patient_name : string;
  appointment_date : value;
  purpose : option string;
  status : option string
}.
End Upcoming.

(** How an f-string renders a text column. *)
Definition format_text (a : option string) : string :=
  match a with
  | Some s => s
  | None => "None"
  end.

(** How an f-string renders an [int]. *)
Definition format_int (z : Z) : string := NilZero.string_of_int (Z.to_int z).

Definition upcoming_entry (ap : Appointments.row * Patients.row) : Upcoming.entry :=
  let '(a, p) := ap in
  {| Upcoming.appointment_id := Appointments.appointment_id a;
     Upcoming.patient_name :=
       (format_text (Patients.first_name p) ++ " "
        ++ format_text (Patients.last_name p))%string;
     Upcoming.appointment_date := Appointments.appointment_date a;
     Upcoming.purpose := Appointments.purpose a;
     Upcoming.status := Appointments.status a |}.

(** [appointments a JOIN patients p ON a.patient_id = p.patient_id] *)
Definition join_patients (la : list Appointments.row) (lp : list Patients.row)
  : list (Appointments.row * Patients.row) :=
  flat_map
    (fun a =>
       map (fun p => (a, p))
         (filter (fun p => Appointments.patient_id a =? Patients.patient_id p) lp))
    la.

Definition get_upcoming_appointments (now : clock) (days_ahead : Z) (d : db)
  : outcome (list Upcoming.entry) :=
  let lo := datetime_now now in
  let hi := datetime_now_shifted now ("+" ++ format_int days_ahead ++ " days")%string in
  match appointments d, patients d with
  | Some ta, Some tp =>
      Returned
        (map upcoming_entry
           (order_by_asc (fun ap => Appointments.appointment_date (fst ap))
              (filter (fun ap => between (Appointments.appointment_date (fst ap)) lo hi)
                 (join_patients (rows ta) (rows tp)))))
  | _, _ => Raised OperationalError
  end.

Definition set_status (status : option string) (a : Appointments.row)
  : Appointments.row :=
  {| Appointments.appointment_id := Appointments.appointment_id a;
     Appointments.patient_id := Appointments.patient_id a;
     Appointments.appointment_date := Appointments.appointment_date a;
     Appointments.purpose := Appointments.purpose a;
     Appointments.status := status |}.

(** [UPDATE appointments SET status = ? WHERE appointment_id = ?]; the number
    reported is [rowcount].  The [CHECK] on [status] is looked at for the rows
    that are changed. *)
Definition update_status (status : option string) (appointment_id : Z) (d : db)
  : exec :=
  match appointments d with
  | None => Failed OperationalError
  | Some t =>
      let hit := fun a => Appointments.appointment_id a =? appointment_id in
      if existsb hit (rows t) && negb (check_in statuses status)
      then Failed IntegrityError
      else
        Done {| foreign_keys := foreign_keys d;
                patients := patients d;
                medical_records := medical_records d;
                appointments :=
                  Some {| rows := map (fun a => if hit a then set_status status a else a)
                                      (rows t);
                          seq := seq t |} |}
             (Z.of_nat (List.length (filter hit (rows t))))
  end.

(** [update_appointment_status]: every [sqlite3.Error] is caught. *)
Definition update_appointment_status (appointment_id : Z) (status : option string)
  (d : db) : db * outcome bool :=
  match update_status status appointment_id d with
  | Done d' rowcount => (d', Returned (0 <? rowcount))
  | Failed _ => (d, Returned false)
  end.

(* ================================================================== *)
(** ** The calls of [main]

    The demonstration driver, call by call, on a file that did not exist. *)

Local Open Scope string_scope.
Local Open Scope list_scope.
Local Open Scope Z_scope.

Definition main_0 : db := HealthcareDatabase new_file.

Definition main_1 : db :=
  fst (add_patient (Some "John") (Some "Doe") (Some "1985-05-15") (Some "Male")
         (Some "555-0101") (Some "john.doe@example.com") None (Some "O+") main_0).

Definition main_2 : db :=
  fst (add_patient (Some "Jane") (Some "Smith") (Some "1990-11-22") (Some "Female")
         (Some "555-0202") (Some "jane.smith@example.com") None (Some "A-") main_1).

Definition main_3 : db :=
  fst (add_medical_record 1 (Some "2023-01-10") (Some "Hypertension") None
         (Some "Lisinopril 10mg daily")
         (Some "Patient advised to reduce sodium intake") main_2).

Definition main_4 : db :=
  fst (add_medical_record 1 (Some "2023-04-15") (Some "Annual checkup") None None
         (Some "Patient in good health, blood pressure controlled") main_3).

Definition main_5 : db :=
  fst (schedule_appointment 1 (Some "2023-10-20 09:30:00")
         (Some "Follow-up for hypertension") (Some "Scheduled") main_4).

Definition main_6 : db :=
  fst (schedule_appointment 2 (Some "2023-10-21 14:00:00")
         (Some "Annual physical") (Some "Scheduled") main_5).

(** A reading of the clock on 2023-10-01 at midnight, for a window of thirty
    days. *)
Definition october_clock : clock :=
  {| datetime_now := VText "2023-10-01 00:00:00";
     datetime_now_shifted := fun modifier =>
       if String.eqb modifier "+30 days" then VText "2023-10-31 00:00:00"
       else VNull |}.

(** A record filed under an id that no patient has. *)
Definition stray_record_db : db :=
  fst (add_medical_record 7 (Some "2023-01-10") None None None None main_0).

(** The two appointments of [main], one more 400 days after the reading of
    [october_clock], one on the day before it, and one for an id that no
    patient has. *)
Definition window_db : db :=
  let d1 := fst (schedule_appointment 1 (Some "2024-11-04 09:30:00")
                   (Some "Next year") (Some "Scheduled") main_6) in
  let d2 := fst (schedule_appointment 2 (Some "2023-09-30 10:00:00")
                   (Some "Yesterday") (Some "Scheduled") d1) in
  fst (schedule_appointment 7 (Some "2023-10-05 10:00:00")
         (Some "Nobody") (Some "Scheduled") d2).

(* ================================================================== *)
(** ** Vocabulary of the statements *)






(** The non-null emails of the patients, one entry per row that has one. *)
Definition emails (l : list Patients.row) : list string :=
  flat_map (fun p => match Patients.email p with
                     | Some e => [e]
                     | None => []
                     end) l.

(** The [UNIQUE] constraint on [email] holds in the stored rows. *)
Definition emails_unique (d : db) : Prop :=
  NoDup (emails (rows_of (patients d))).

(** The three tables exist, which is the case once [__init__] has run. *)
Definition schema_ready (d : db) : Prop :=
  patients d <> None /\ medical_records d <> None /\ appointments d <> None.

(** The states a [HealthcareDatabase] object goes through: the one
    [__init__] leaves on a new file, and the ones its writing methods lead
    to. *)
Inductive reachable : db -> Prop :=
| reach_init : reachable (HealthcareDatabase new_file)
| reach_add_patient first last dob gender phone email address blood d :
    reachable d ->
    reachable (fst (add_patient first last dob gender phone email address blood d))
| reach_add_medical_record pid visit diagnosis treatment medications notes d :
    reachable d ->
    reachable (fst (add_medical_record pid visit diagnosis treatment
                      medications notes d))
| reach_schedule_appointment pid date purpose status d :
    reachable d ->
    reachable (fst (schedule_appointment pid date purpose status d))
| reach_update_appointment_status id status d :
    reachable d ->
    reachable (fst (update_appointment_status id status d)).

(** ** The driver [main]

    [main] on any file and any reading of the clock: the database it leaves
    and the three results it prints (the patients found under "Doe", the
    history of the first patient, the appointments of the next thirty days).
    The ids that the two [add_patient] calls return are passed on as they
    come, [-1] included; what the other four writing calls return is not
    used.  An exception ends the run. *)

Definition bind {A B : Type} (o : outcome A) (k : A -> outcome B) : outcome B :=
  match o with
  | Returned a => k a
  | Raised e => Raised e
  end.

(** The four writing calls that follow the two [add_patient] calls. *)
Definition main_writes (patient1 patient2 : Z) (db2 : db) : db :=
  let db3 :=
    fst (add_medical_record patient1 (Some "2023-01-10") (Some "Hypertension")
           None (Some "Lisinopril 10mg daily")
           (Some "Patient advised to reduce sodium intake") db2) in
  let db4 :=
    fst (add_medical_record patient1 (Some "2023-04-15") (Some "Annual checkup")
           None None
           (Some "Patient in good health, blood pressure controlled") db3) in
  let db5 :=
    fst (schedule_appointment patient1 (Some "2023-10-20 09:30:00")
           (Some "Follow-up for hypertension") (Some "Scheduled") db4) in
  fst (schedule_appointment patient2 (Some "2023-10-21 14:00:00")
         (Some "Annual physical") (Some "Scheduled") db5).

Definition main (now : clock) (file : db)
  : outcome (db * (list Patients.row * list History.entry * list Upcoming.entry)) :=
  let db0 := HealthcareDatabase file in
  let '(db1, r1) :=
    add_patient (Some "John") (Some "Doe") (Some "1985-05-15") (Some "Male")
      (Some "555-0101") (Some "john.doe@example.com") None (Some "O+") db0 in
  bind r1 (fun patient1 =>
  let '(db2, r2) :=
    add_patient (Some "Jane") (Some "Smith") (Some "1990-11-22") (Some "Female")
      (Some "555-0202") (Some "jane.smith@example.com") None (Some "A-") db1 in
  bind r2 (fun patient2 =>
  let db6 := main_writes patient1 patient2 db2 in
  bind (search_patients (Some "Doe") None db6) (fun found =>
  bind (get_patient_medical_history patient1 db6) (fun history =>
  bind (get_upcoming_appointments now 30 db6) (fun upcoming =>
  Returned (db6, (found, history, upcoming))))))).

(** ** More vocabulary *)

(** The keys of each table are pairwise distinct and positive. *)
Definition keys_distinct (d : db) : Prop :=
  NoDup (map Patients.patient_id (rows_of (patients d))) /\
  NoDup (map MedicalRecords.record_id (rows_of (medical_records d))) /\
  NoDup (map Appointments.appointment_id (rows_of (appointments d))).

Definition keys_positive (d : db) : Prop :=
  Forall (fun p => 0 < Patients.patient_id p) (rows_of (patients d)) /\
  Forall (fun r => 0 < MedicalRecords.record_id r) (rows_of (medical_records d)) /\
  Forall (fun a => 0 < Appointments.appointment_id a) (rows_of (appointments d)).

(** What the column constraints of the schema say of a stored row. *)
Definition patient_ok (p : Patients.row) : Prop :=
  Patients.first_name p <> None /\
  Patients.last_name p <> None /\
  Patients.date_of_birth p <> VNull /\
  check_in genders (Patients.gender p) = true /\
  check_in blood_types (Patients.blood_type p) = true.

Definition record_ok (r : MedicalRecords.row) : Prop :=
  MedicalRecords.visit_date r <> VNull.

Definition appointment_ok (a : Appointments.row) : Prop :=
  Appointments.appointment_date a <> VNull /\
  check_in statuses (Appointments.status a) = true.

Definition constraints_hold (d : db) : Prop :=
  Forall patient_ok (rows_of (patients d)) /\
  Forall record_ok (rows_of (medical_records d)) /\
  Forall appointment_ok (rows_of (appointments d)).

(** Text that begins with a digit and whose first character after the
    leading digits is not a blank, a point or the letter e: the shape of
    [1985-05-15] and of [2023-10-20 09:30:00]. *)
Fixpoint digits_then_other (s : list ascii) (seen : bool) : bool :=
  match s with
  | [] => false
  | c :: s' =>
      if is_digit c then digits_then_other s' true
      else seen && negb (is_space c) && negb (code c =? 46)
           && negb (code c =? 101) && negb (code c =? 69)
  end.

Definition date_like (s : string) : bool := digits_then_other (chars s) false.

(** What the [UPDATE] does to one row. *)
Definition restatus (A : Z) (status : option string) (a : Appointments.row)
  : Appointments.row :=
  if Appointments.appointment_id a =? A then set_status status a else a.

(** The entry of a listing with another status. *)
Definition with_status (status : option string) (e : Upcoming.entry)
  : Upcoming.entry :=
  {| Upcoming.appointment_id := Upcoming.appointment_id e;
     Upcoming.patient_name := Upcoming.patient_name e;
     Upcoming.appointment_date := Upcoming.appointment_date e;
     Upcoming.purpose := Upcoming.purpose e;
     Upcoming.status := status |}.

(* ================================================================== *)
(** ** Facts about the storage engine *)

Module SqliteFacts.

(** *** The order of values is a total preorder *)





(** *** [ORDER BY] sorts, and keeps every row *)

Section Sorting.
Context {R : Type} (leb : R -> R -> bool).
Hypothesis leb_total : forall a b, leb a b = true \/ leb b a = true.
Hypothesis leb_trans : forall a b c, leb a b = true -> leb b c = true -> leb a c = true.


Lemma insert_sorted_perm (x : R) (l : list R) :
  Permutation (insert_sorted leb x l) (x :: l).
Proof.
  induction l as [|y l IH]; simpl; [reflexivity|].
  destruct (leb x y); [reflexivity|].
  rewrite IH. apply perm_swap.
Qed.

Lemma sort_rows_perm (l : list R) : Permutation (sort_rows leb l) l.
Proof.
  induction l as [|x l IH]; simpl; [reflexivity|].
  rewrite insert_sorted_perm. now constructor.
Qed.



End Sorting.



Lemma order_by_asc_perm {R : Type} (key : R -> value) (l : list R) :
  Permutation (order_by_asc key l) l.
Proof. apply sort_rows_perm. Qed.



End SqliteFacts.

Module LikeFacts.














End LikeFacts.

(* ================================================================== *)
(** ** Facts about the methods *)

Module MethodFacts.

Lemma max_rowid_bound (ids : list Z) (x : Z) :
  In x ids -> x <= fold_right Z.max 0 ids.
Proof.
  induction ids as [|y ids IH]; simpl; [tauto|].
  intros [-> | H]; [lia|]. specialize (IH H). lia.
Qed.

Lemma max_rowid_nonneg (ids : list Z) : 0 <= fold_right Z.max 0 ids.
Proof. induction ids; simpl; lia. Qed.

(** A new key is positive and larger than every key in the table. *)
Lemma next_rowid_fresh (ids : list Z) (s x : Z) :
  In x ids -> x < next_rowid ids s.
Proof. intros H. apply max_rowid_bound in H. unfold next_rowid. lia. Qed.

Lemma next_rowid_positive (ids : list Z) (s : Z) : 0 < next_rowid ids s.
Proof. pose proof (max_rowid_nonneg ids). unfold next_rowid. lia. Qed.

Lemma has_email_emails (e : string) (l : list Patients.row) :
  existsb (has_email e) l = true <-> In e (emails l).
Proof.
  unfold emails. rewrite existsb_exists, in_flat_map.
  split; intros (p & Hp & H); exists p; split; auto; unfold has_email in *;
    destruct (Patients.email p) as [e'|]; simpl in *; try discriminate; try tauto.
  - apply String.eqb_eq in H. now left.
  - destruct H as [->|[]]. apply String.eqb_refl.
Qed.

Lemma filter_has_email (e : string) (l : list Patients.row) :
  List.length (filter (has_email e) l) = count_occ string_dec (emails l) e.
Proof.
  induction l as [|p l IH]; simpl; [reflexivity|].
  unfold has_email at 1. destruct (Patients.email p) as [e'|]; simpl; [|exact IH].
  destruct (String.eqb_spec e e') as [->|Hne].
  - simpl. destruct (string_dec e' e'); [now rewrite IH|congruence].
  - destruct (string_dec e' e); [congruence|exact IH].
Qed.


Lemma find_skip {A : Type} (f : A -> bool) (l l' : list A) :
  (forall x, In x l -> f x = false) -> find f (l ++ l') = find f l'.
Proof.
  induction l as [|y l IH]; simpl; [reflexivity|]. intros H.
  rewrite (H y) by now left. apply IH. intros x Hx. apply H. now right.
Qed.

(** What a successful [INSERT INTO patients] did. *)
Lemma insert_patient_done
  (first last dob gender phone email address blood : option string)
  (d d' : db) (id : Z) :
  insert_patient first last dob gender phone email address blood d = Done d' id ->
  exists t,
    patients d = Some t /\
    id = next_rowid (map Patients.patient_id (rows t)) (seq t) /\
    unique_email email (rows t) = true /\
    d' = {| foreign_keys := foreign_keys d;
            patients :=
              Some {| rows := rows t ++
                        [{| Patients.patient_id := id;
                            Patients.first_name := first;
                            Patients.last_name := last;
                            Patients.date_of_birth := store_numeric dob;
                            Patients.gender := gender;
                            Patients.phone := phone;
                            Patients.email := email;
                            Patients.address := address;
                            Patients.blood_type := blood |}];
                      seq := id |};
            medical_records := medical_records d;
            appointments := appointments d |}.
Proof.
  unfold insert_patient. destruct (patients d) as [t|]; [|discriminate].
  destruct (_ && unique_email email (rows t)) eqn:Hc; [|discriminate].
  intros H. injection H as <- <-. exists t.
  apply andb_true_iff in Hc as [_ Hu]. auto.
Qed.


(** *** What every state of the class satisfies *)

Lemma HealthcareDatabase_foreign_keys (file : db) :
  foreign_keys (HealthcareDatabase file) = false.
Proof. reflexivity. Qed.

Lemma HealthcareDatabase_schema_ready (file : db) :
  schema_ready (HealthcareDatabase file).
Proof.
  unfold schema_ready, HealthcareDatabase, _create_tables, connect; simpl.
  destruct (patients file), (medical_records file), (appointments file);
    simpl; repeat split; discriminate.
Qed.

Lemma add_patient_foreign_keys
  (first last dob gender phone email address blood : option string) (d : db) :
  foreign_keys (fst (add_patient first last dob gender phone email address blood d))
  = foreign_keys d.
Proof.
  unfold add_patient, insert_patient. destruct (patients d); [|reflexivity].
  destruct (_ && _); reflexivity.
Qed.

Lemma add_medical_record_foreign_keys
  (pid : Z) (visit diagnosis treatment medications notes : option string) (d : db) :
  foreign_keys (fst (add_medical_record pid visit diagnosis treatment medications notes d))
  = foreign_keys d.
Proof.
  unfold add_medical_record, insert_medical_record.
  destruct (medical_records d); [|reflexivity]. destruct (_ && _); reflexivity.
Qed.

Lemma schedule_appointment_foreign_keys
  (pid : Z) (date purpose status : option string) (d : db) :
  foreign_keys (fst (schedule_appointment pid date purpose status d))
  = foreign_keys d.
Proof.
  unfold schedule_appointment, insert_appointment.
  destruct (appointments d); [|reflexivity]. destruct (_ && _); reflexivity.
Qed.

Lemma update_appointment_status_foreign_keys
  (id : Z) (status : option string) (d : db) :
  foreign_keys (fst (update_appointment_status id status d)) = foreign_keys d.
Proof.
  unfold update_appointment_status, update_status.
  destruct (appointments d); [|reflexivity]. destruct (_ && _); reflexivity.
Qed.

(** The [UNIQUE] constraint on [email] is kept by [add_patient], the only
    method that writes to [patients]. *)
Lemma add_patient_emails_unique
  (first last dob gender phone email address blood : option string) (d : db) :
  emails_unique d ->
  emails_unique (fst (add_patient first last dob gender phone email address blood d)).
Proof.
  intros Hd. unfold add_patient.
  destruct (insert_patient _ _ _ _ _ _ _ _ d) as [d' id|[|]] eqn:Hins;
    simpl; try exact Hd.
  apply insert_patient_done in Hins as (t & Ht & _ & Hu & ->).
  unfold emails_unique in *. rewrite Ht in Hd. simpl in *.
  unfold emails in *. rewrite flat_map_app. simpl. rewrite app_nil_r.
  destruct email as [e|]; [|now rewrite app_nil_r].
  simpl in Hu. apply negb_true_iff in Hu.
  apply NoDup_app; [exact Hd|repeat constructor; simpl; tauto|].
  intros x Hx [<-|[]].
  apply has_email_emails in Hx. unfold emails in Hx. congruence.
Qed.

Lemma HealthcareDatabase_emails_unique : emails_unique (HealthcareDatabase new_file).
Proof. constructor. Qed.

(** With enforcement of foreign keys on, a record for a patient that does
    not exist is refused. *)
Lemma add_medical_record_enforced
  (pid : Z) (visit diagnosis treatment medications notes : option string) (d : db) :
  foreign_keys d = true -> patient_exists d pid = false ->
  add_medical_record pid visit diagnosis treatment medications notes d
  = (d, Returned (-1)).
Proof.
  intros Hfk Hp. unfold add_medical_record, insert_medical_record, foreign_key_ok.
  rewrite Hfk, Hp. destruct (medical_records d); [|reflexivity].
  now rewrite andb_false_r.
Qed.

(** With the pragma off, as [connect] leaves it, the patients are not looked
    at: the record is stored under a new id whatever [pid] is. *)
Lemma add_medical_record_not_enforced
  (pid : Z) (visit : string) (diagnosis treatment medications notes : option string)
  (d : db) (t : table MedicalRecords.row) :
  foreign_keys d = false -> medical_records d = Some t ->
  let id := next_rowid (map MedicalRecords.record_id (rows t)) (seq t) in
  snd (add_medical_record pid (Some visit) diagnosis treatment medications notes d)
    = Returned id /\
  0 < id /\
  exists r,
    rows_of (medical_records
               (fst (add_medical_record pid (Some visit) diagnosis treatment
                       medications notes d))) = rows t ++ [r] /\
    MedicalRecords.patient_id r = pid.
Proof.
  intros Hfk Ht id. unfold add_medical_record, insert_medical_record, foreign_key_ok.
  rewrite Ht, Hfk. simpl. split; [reflexivity|].
  split; [apply next_rowid_positive|]. eexists. split; reflexivity.
Qed.

(** The not-null columns of [patients]. *)
Lemma add_patient_not_null
  (first last dob gender phone email address blood : option string) (d : db) :
  patients d <> None ->
  first = None \/ last = None \/ dob = None ->
  add_patient first last dob gender phone email address blood d
  = (d, Returned (-1)).
Proof.
  intros Ht H. unfold add_patient, insert_patient.
  destruct (patients d) as [t|]; [|congruence].
  destruct H as [-> | [-> | ->]]; simpl; try reflexivity;
    destruct first; simpl; try reflexivity; destruct last; reflexivity.
Qed.

(** A gender or a blood type outside its enumeration is refused. *)
Lemma add_patient_enumerations
  (first last dob gender phone email address blood : option string) (d : db) :
  patients d <> None ->
  check_in genders gender = false \/ check_in blood_types blood = false ->
  add_patient first last dob gender phone email address blood d
  = (d, Returned (-1)).
Proof.
  intros Ht H. unfold add_patient, insert_patient.
  destruct (patients d) as [t|]; [|congruence].
  destruct H as [H|H]; rewrite H; rewrite ?andb_false_r; reflexivity.
Qed.

(** The writing methods other than [add_patient] leave [patients] alone. *)
Lemma add_medical_record_patients
  (pid : Z) (visit diagnosis treatment medications notes : option string) (d : db) :
  patients (fst (add_medical_record pid visit diagnosis treatment medications notes d))
  = patients d.
Proof.
  unfold add_medical_record, insert_medical_record.
  destruct (medical_records d); [|reflexivity]. destruct (_ && _); reflexivity.
Qed.

Lemma schedule_appointment_patients
  (pid : Z) (date purpose status : option string) (d : db) :
  patients (fst (schedule_appointment pid date purpose status d)) = patients d.
Proof.
  unfold schedule_appointment, insert_appointment.
  destruct (appointments d); [|reflexivity]. destruct (_ && _); reflexivity.
Qed.

Lemma update_appointment_status_patients
  (id : Z) (status : option string) (d : db) :
  patients (fst (update_appointment_status id status d)) = patients d.
Proof.
  unfold update_appointment_status, update_status.
  destruct (appointments d); [|reflexivity]. destruct (_ && _); reflexivity.
Qed.

(** No method drops a table. *)
Lemma add_patient_schema_ready
  (first last dob gender phone email address blood : option string) (d : db) :
  schema_ready d ->
  schema_ready (fst (add_patient first last dob gender phone email address blood d)).
Proof.
  destruct d as [fk tp tm ta].
  unfold schema_ready, add_patient, insert_patient; simpl.
  destruct tp; [|tauto].
  destruct (_ && _); simpl; intuition congruence.
Qed.

Lemma add_medical_record_schema_ready
  (pid : Z) (visit diagnosis treatment medications notes : option string) (d : db) :
  schema_ready d ->
  schema_ready (fst (add_medical_record pid visit diagnosis treatment
                       medications notes d)).
Proof.
  destruct d as [fk tp tm ta].
  unfold schema_ready, add_medical_record, insert_medical_record; simpl.
  destruct tm; [|tauto].
  destruct (_ && _); simpl; intuition congruence.
Qed.

Lemma schedule_appointment_schema_ready
  (pid : Z) (date purpose status : option string) (d : db) :
  schema_ready d ->
  schema_ready (fst (schedule_appointment pid date purpose status d)).
Proof.
  destruct d as [fk tp tm ta].
  unfold schema_ready, schedule_appointment, insert_appointment; simpl.
  destruct ta; [|tauto].
  destruct (_ && _); simpl; intuition congruence.
Qed.

Lemma update_appointment_status_schema_ready
  (id : Z) (status : option string) (d : db) :
  schema_ready d ->
  schema_ready (fst (update_appointment_status id status d)).
Proof.
  destruct d as [fk tp tm ta].
  unfold schema_ready, update_appointment_status, update_status; simpl.
  destruct ta; [|tauto].
  destruct (_ && _); simpl; intuition congruence.
Qed.

(** In every state of the class the tables exist, the emails are pairwise
    distinct, and foreign keys are not enforced. *)
Lemma reachable_invariant (d : db) :
  reachable d ->
  schema_ready d /\ emails_unique d /\ foreign_keys d = false.
Proof.
  induction 1 as [| ? ? ? ? ? ? ? ? d _ (Hs & He & Hf)
                  | ? ? ? ? ? ? d _ (Hs & He & Hf)
                  | ? ? ? ? d _ (Hs & He & Hf)
                  | ? ? d _ (Hs & He & Hf)].
  - split; [apply HealthcareDatabase_schema_ready|].
    split; [apply HealthcareDatabase_emails_unique|reflexivity].
  - split; [now apply add_patient_schema_ready|].
    split; [now apply add_patient_emails_unique|].
    now rewrite add_patient_foreign_keys.
  - split; [now apply add_medical_record_schema_ready|].
    split; [|now rewrite add_medical_record_foreign_keys].
    unfold emails_unique. now rewrite add_medical_record_patients.
  - split; [now apply schedule_appointment_schema_ready|].
    split; [|now rewrite schedule_appointment_foreign_keys].
    unfold emails_unique. now rewrite schedule_appointment_patients.
  - split; [now apply update_appointment_status_schema_ready|].
    split; [|now rewrite update_appointment_status_foreign_keys].
    unfold emails_unique. now rewrite update_appointment_status_patients.
Qed.

(** In every state of the class, a record for any patient id at all is
    accepted as long as it has a visit date. *)
Lemma add_medical_record_reachable
  (pid : Z) (visit : string) (diagnosis treatment medications notes : option string)
  (d : db) :
  reachable d ->
  snd (add_medical_record pid (Some visit) diagnosis treatment medications notes d)
  <> Returned (-1).
Proof.
  intros Hr. apply reachable_invariant in Hr as ((_ & Hm & _) & _ & Hf).
  destruct (medical_records d) as [t|] eqn:Ht; [|congruence].
  destruct (add_medical_record_not_enforced pid visit diagnosis treatment
              medications notes d t Hf Ht) as (Hret & Hpos & _).
  rewrite Hret. intros H. inversion H. lia.
Qed.

(** A modifier the engine cannot read, such as the [+-3 days] built from a
    negative [days_ahead], gives [NULL] for the upper end, and no
    appointment is listed. *)
Lemma get_upcoming_appointments_null_bound
  (now : clock) (days_ahead : Z) (d : db) :
  schema_ready d ->
  datetime_now_shifted now ("+" ++ format_int days_ahead ++ " days")%string = VNull ->
  get_upcoming_appointments now days_ahead d = Returned [].
Proof.
  intros (Hp & _ & Ha) Hnull. unfold get_upcoming_appointments. rewrite Hnull.
  destruct (appointments d) as [ta|]; [|congruence].
  destruct (patients d) as [tp|]; [|congruence].
  f_equal.
  replace (filter _ (join_patients (rows ta) (rows tp)))
    with (@nil (Appointments.row * Patients.row)); [reflexivity|].
  symmetry. induction (join_patients (rows ta) (rows tp)) as [|ap l IH];
    simpl; [reflexivity|].
  unfold between at 1. simpl as_numeric.
  replace (sql_le (Appointments.appointment_date (fst ap)) VNull) with false
    by (now destruct (Appointments.appointment_date (fst ap))).
  rewrite andb_false_r. exact IH.
Qed.

Lemma format_int_samples :
  format_int 30 = "30" /\ format_int 0 = "0" /\ format_int (-3) = "-3".
Proof. repeat split. Qed.

End MethodFacts.

(* ================================================================== *)
(** ** The claims *)

Import SqliteFacts LikeFacts MethodFacts.

(** C1 (the code departs from the claim): [add_medical_record] for a patient
    id that no patient has.  On the database as [__init__] leaves it, with no
    patient at all, the call for patient 7 does not return [-1]: it stores
    the record and returns its id 1.  The schema declares the foreign key,
    but the connection never turns its enforcement on. *)
Theorem add_medical_record_unknown_patient :
  patient_exists main_0 7 = false /\
  add_medical_record 7 (Some "2023-01-10") None None None None main_0
  = (stray_record_db, Returned 1) /\
  map MedicalRecords.patient_id (rows_of (medical_records stray_record_db)) = [7].
Proof. repeat split. Qed.

(** C2, the claim as stated fails: a patient with no gender is stored and
    gets the id 1. *)
Lemma add_patient_null_gender_stored :
  let call := add_patient (Some "John") (Some "Doe") (Some "1985-05-15") None
                None None None None main_0 in
  snd call = Returned 1 /\
  map Patients.gender (rows_of (patients (fst call))) = [None].
Proof. split; reflexivity. Qed.

(** C2, amended: [add_patient] with no gender is not refused on that
    account.  The column [gender] carries the [CHECK] on its enumeration and
    no [NOT NULL]; a null passes the check.  With a first name, a last name
    and a date of birth given, a blood type that is absent or in its
    enumeration, and an email that is absent or not yet used, the call
    returns the new id, which is not [-1], and adds one row, whose gender is
    null. *)
Theorem add_patient_null_gender
  (first last dob : string) (phone email address blood : option string)
  (d : db) (t : table Patients.row) :
  patients d = Some t ->
  check_in blood_types blood = true ->
  unique_email email (rows t) = true ->
  exists d' id r,
    add_patient (Some first) (Some last) (Some dob) None phone email address
      blood d = (d', Returned id) /\
    id <> -1 /\
    rows_of (patients d') = rows t ++ [r] /\
    Patients.patient_id r = id /\
    Patients.gender r = None.
Proof.
  intros Ht Hb Hu. unfold add_patient, insert_patient.
  rewrite Ht, Hb, Hu. simpl.
  do 3 eexists. split; [reflexivity|]. simpl.
  split; [|repeat split].
  pose proof (next_rowid_positive (map Patients.patient_id (rows t)) (seq t)). lia.
Qed.

Lemma add_patient_null_gender_witness :
  exists d' id r,
    add_patient (Some "Ann") (Some "Lee") (Some "1970-01-01") None None None None
      None main_2 = (d', Returned id) /\
    id <> -1 /\
    rows_of (patients d') = rows_of (patients main_2) ++ [r] /\
    Patients.patient_id r = id /\
    Patients.gender r = None.
Proof.
  exact (add_patient_null_gender "Ann" "Lee" "1970-01-01" None None None None
           main_2 _ eq_refl eq_refl eq_refl).
Defined.




(** The two visits of [main] come back most recent first. *)
Lemma main_history_order :
  match get_patient_medical_history 1 main_4 with
  | Returned l => map History.visit_date l = [VText "2023-04-15"; VText "2023-01-10"]
  | Raised _ => False
  end.
Proof. reflexivity. Qed.



(** Thirty days from 2023-10-01: the two appointments of [main] are listed,
    the earlier one first; the one 400 days ahead and the one of the day
    before are not.  The appointment of 2023-10-05 refers to no patient row,
    so the join has no entry for it. *)
Lemma window_db_upcoming :
  map Appointments.appointment_date (rows_of (appointments window_db))
  = [VText "2023-10-20 09:30:00"; VText "2023-10-21 14:00:00";
     VText "2024-11-04 09:30:00"; VText "2023-09-30 10:00:00";
     VText "2023-10-05 10:00:00"] /\
  match get_upcoming_appointments october_clock 30 window_db with
  | Returned l =>
      map (fun e => (Upcoming.appointment_id e, Upcoming.patient_name e,
                     Upcoming.appointment_date e)) l
      = [(1, "John Doe", VText "2023-10-20 09:30:00");
         (2, "Jane Smith", VText "2023-10-21 14:00:00")]
  | Raised _ => False
  end.
Proof. split; reflexivity. Qed.



(** The status of appointment 1 of [main] set to Completed, and an id that
    no appointment has. *)
Lemma main_update_status :
  snd (update_appointment_status 1 (Some "Completed") main_6) = Returned true /\
  map Appointments.status
    (rows_of (appointments (fst (update_appointment_status 1 (Some "Completed") main_6))))
  = [Some "Completed"; Some "Scheduled"] /\
  update_appointment_status 9 (Some "Completed") main_6 = (main_6, Returned false).
Proof. repeat split. Qed.

(** C6: in every database state that satisfies the [UNIQUE] constraint on
    [email] and holds a patient with the email [E], [add_patient] called with
    the email [E] returns [-1] and leaves the database as it was; afterwards
    exactly one patient has the email [E]. *)
Theorem add_patient_duplicate_email
  (first last dob gender phone address blood : option string) (E : string)
  (d : db) (p : Patients.row) :
  emails_unique d ->
  In p (rows_of (patients d)) ->
  Patients.email p = Some E ->
  add_patient first last dob gender phone (Some E) address blood d
  = (d, Returned (-1)) /\
  List.length
    (filter (has_email E)
       (rows_of (patients
                   (fst (add_patient first last dob gender phone (Some E)
                           address blood d)))))
  = 1%nat.
Proof.
  intros Hu Hp He.
  assert (Hin : In E (emails (rows_of (patients d)))).
  { unfold emails. apply in_flat_map. exists p. split; [exact Hp|].
    rewrite He. now left. }
  assert (Hcall : add_patient first last dob gender phone (Some E) address blood d
                  = (d, Returned (-1))).
  { unfold add_patient, insert_patient.
    destruct (patients d) as [t|]; [|destruct Hp].
    simpl in Hin. apply has_email_emails in Hin.
    unfold unique_email. rewrite Hin. simpl. now rewrite !andb_false_r. }
  split; [exact Hcall|]. rewrite Hcall. simpl fst.
  rewrite filter_has_email.
  apply (proj1 (NoDup_count_occ' string_dec _) Hu). exact Hin.
Qed.

Lemma add_patient_duplicate_email_witness :
  add_patient (Some "Johnny") (Some "Doe") (Some "1985-05-15") (Some "Male")
    None (Some "john.doe@example.com") None None main_2
  = (main_2, Returned (-1)) /\
  List.length
    (filter (has_email "john.doe@example.com")
       (rows_of (patients
                   (fst (add_patient (Some "Johnny") (Some "Doe")
                           (Some "1985-05-15") (Some "Male") None
                           (Some "john.doe@example.com") None None main_2)))))
  = 1%nat.
Proof.
  apply (add_patient_duplicate_email (Some "Johnny") (Some "Doe")
           (Some "1985-05-15") (Some "Male") None None None
           "john.doe@example.com" main_2
           {| Patients.patient_id := 1;
              Patients.first_name := Some "John";
              Patients.last_name := Some "Doe";
              Patients.date_of_birth := VText "1985-05-15";
              Patients.gender := Some "Male";
              Patients.phone := Some "555-0101";
              Patients.email := Some "john.doe@example.com";
              Patients.address := None;
              Patients.blood_type := Some "O+" |}).
  - unfold emails_unique. simpl.
    repeat constructor; simpl; intuition discriminate.
  - simpl. now left.
  - reflexivity.
Defined.







(** The searches of the specification's examples, on the two patients of
    [main]. *)
Lemma main_searches :
  match search_patients (Some "Doe") None main_2,
        search_patients None (Some "Female") main_2,
        search_patients (Some "doe") None main_2 with
  | Returned by_name, Returned by_gender, Returned lower_case =>
      map Patients.last_name by_name = [Some "Doe"] /\
      map Patients.gender by_gender = [Some "Female"] /\
      map Patients.last_name lower_case = [Some "Doe"]
  | _, _, _ => False
  end.
Proof. repeat split. Qed.

(** C9: schema creation is idempotent.  On a store where the three tables
    exist, [_create_tables] changes nothing: no table is created again and
    every row and key counter is as before.  On any store, running it twice
    gives what running it once gives, and a run leaves the rows that were
    there. *)
Theorem create_tables_idempotent (d : db) :
  schema_ready d ->
  _create_tables d = d /\
  _create_tables (_create_tables d) = _create_tables d /\
  rows_of (patients (_create_tables d)) = rows_of (patients d) /\
  rows_of (medical_records (_create_tables d)) = rows_of (medical_records d) /\
  rows_of (appointments (_create_tables d)) = rows_of (appointments d).
Proof.
  intros (Hp & Hm & Ha). destruct d as [fk [tp|] [tm|] [ta|]]; simpl in *;
    try congruence.
  repeat split.
Qed.

Lemma create_tables_idempotent_witness :
  _create_tables main_6 = main_6 /\
  _create_tables (_create_tables main_6) = _create_tables main_6 /\
  rows_of (patients (_create_tables main_6)) = rows_of (patients main_6) /\
  rows_of (medical_records (_create_tables main_6)) = rows_of (medical_records main_6) /\
  rows_of (appointments (_create_tables main_6)) = rows_of (appointments main_6).
Proof.
  apply (create_tables_idempotent main_6).
  unfold schema_ready. simpl. repeat split; discriminate.
Defined.

(** Whatever the store holds, tables or not, a second run of
    [_create_tables] changes nothing, the tables exist after a run, and a run
    keeps the rows. *)
Lemma create_tables_twice (d : db) :
  _create_tables (_create_tables d) = _create_tables d /\
  schema_ready (_create_tables d) /\
  rows_of (patients (_create_tables d)) = rows_of (patients d) /\
  rows_of (medical_records (_create_tables d)) = rows_of (medical_records d) /\
  rows_of (appointments (_create_tables d)) = rows_of (appointments d).
Proof.
  destruct d as [fk [tp|] [tm|] [ta|]]; unfold schema_ready; simpl;
    repeat split; discriminate.
Qed.

Lemma HealthcareDatabase_twice (file : db) :
  HealthcareDatabase (HealthcareDatabase file) = HealthcareDatabase file.
Proof. destruct file as [fk [tp|] [tm|] [ta|]]; reflexivity. Qed.

(** C10: [search_patients] takes an empty string for an absent filter.  On
    every database state with the [patients] table, [name = ""] and
    [gender = ""], each alone or both together, return every patient, as the
    call without filters does; [gender = ""] does not restrict the result to
    the patients whose gender is the empty string. *)
Theorem search_patients_empty_string (d : db) (t : table Patients.row) :
  patients d = Some t ->
  search_patients (Some "") None d = Returned (rows t) /\
  search_patients None (Some "") d = Returned (rows t) /\
  search_patients (Some "") (Some "") d = Returned (rows t) /\
  search_patients None None d = Returned (rows t).
Proof.
  intros Ht. unfold search_patients. rewrite Ht. simpl.
  assert (H : filter (fun _ : Patients.row => true) (rows t) = rows t).
  { induction (rows t) as [|p l IH]; simpl; [reflexivity|]. now rewrite IH. }
  rewrite H. repeat split.
Qed.

Lemma search_patients_empty_string_witness :
  search_patients (Some "") None main_2 = Returned (rows_of (patients main_2)) /\
  search_patients None (Some "") main_2 = Returned (rows_of (patients main_2)) /\
  search_patients (Some "") (Some "") main_2 = Returned (rows_of (patients main_2)) /\
  search_patients None None main_2 = Returned (rows_of (patients main_2)).
Proof.
  exact (search_patients_empty_string main_2 _ eq_refl).
Defined.

(** With [gender = ""] the two patients of [main] are both returned, and
    neither has the empty string for a gender. *)
Lemma main_search_empty_gender :
  match search_patients None (Some "") main_2 with
  | Returned l => map Patients.gender l = [Some "Male"; Some "Female"]
  | Raised _ => False
  end.
Proof. reflexivity. Qed.

(* ================================================================== *)
(** ** More facts about the methods *)

Module CoverageFacts.

(** What a successful [INSERT INTO medical_records] did. *)
Lemma insert_medical_record_done
  (pid : Z) (visit diagnosis treatment medications notes : option string)
  (d d' : db) (id : Z) :
  insert_medical_record pid visit diagnosis treatment medications notes d
    = Done d' id ->
  exists t,
    medical_records d = Some t /\
    id = next_rowid (map MedicalRecords.record_id (rows t)) (seq t) /\
    visit <> None /\
    d' = {| foreign_keys := foreign_keys d;
            patients := patients d;
            medical_records :=
              Some {| rows := rows t ++
                        [{| MedicalRecords.record_id := id;
                            MedicalRecords.patient_id := pid;
                            MedicalRecords.visit_date := store_numeric visit;
                            MedicalRecords.diagnosis := diagnosis;
                            MedicalRecords.treatment := treatment;
                            MedicalRecords.medications := medications;
                            MedicalRecords.notes := notes |}];
                      seq := id |};
            appointments := appointments d |}.
Proof.
  unfold insert_medical_record. destruct (medical_records d) as [t|]; [|discriminate].
  destruct (not_null visit && foreign_key_ok d pid) eqn:Hc; [|discriminate].
  intros H. injection H as <- <-. exists t.
  apply andb_true_iff in Hc as [Hv _].
  repeat split; try reflexivity. destruct visit; [discriminate|discriminate].
Qed.

(** What a successful [INSERT INTO appointments] did. *)
Lemma insert_appointment_done
  (pid : Z) (date purpose status : option string) (d d' : db) (id : Z) :
  insert_appointment pid date purpose status d = Done d' id ->
  exists t,
    appointments d = Some t /\
    id = next_rowid (map Appointments.appointment_id (rows t)) (seq t) /\
    date <> None /\
    check_in statuses status = true /\
    d' = {| foreign_keys := foreign_keys d;
            patients := patients d;
            medical_records := medical_records d;
            appointments :=
              Some {| rows := rows t ++
                        [{| Appointments.appointment_id := id;
                            Appointments.patient_id := pid;
                            Appointments.appointment_date := store_numeric date;
                            Appointments.purpose := purpose;
                            Appointments.status := status |}];
                      seq := id |} |}.
Proof.
  unfold insert_appointment. destruct (appointments d) as [t|]; [|discriminate].
  destruct (not_null date && check_in statuses status && foreign_key_ok d pid)
    eqn:Hc; [|discriminate].
  intros H. injection H as <- <-. exists t.
  apply andb_true_iff in Hc as [Hc _]. apply andb_true_iff in Hc as [Hv Hs].
  repeat split; try reflexivity; try assumption.
  destruct date; discriminate.
Qed.

(** The two ways each adding method ends when it returns. *)
Lemma add_patient_cases
  (first last dob gender phone email address blood : option string)
  (d d' : db) (id : Z) :
  add_patient first last dob gender phone email address blood d
    = (d', Returned id) ->
  (id = -1 /\ d' = d) \/
  (0 < id /\
   insert_patient first last dob gender phone email address blood d = Done d' id).
Proof.
  unfold add_patient.
  destruct (insert_patient _ _ _ _ _ _ _ _ d) as [d1 n|[|]] eqn:Hins; intros H;
    inversion H; subst; auto.
  right. split; [|reflexivity].
  apply insert_patient_done in Hins as (t & _ & -> & _). apply next_rowid_positive.
Qed.

Lemma add_medical_record_cases
  (pid : Z) (visit diagnosis treatment medications notes : option string)
  (d d' : db) (id : Z) :
  add_medical_record pid visit diagnosis treatment medications notes d
    = (d', Returned id) ->
  (id = -1 /\ d' = d) \/
  (0 < id /\
   insert_medical_record pid visit diagnosis treatment medications notes d
     = Done d' id).
Proof.
  unfold add_medical_record.
  destruct (insert_medical_record _ _ _ _ _ _ d) as [d1 n|e] eqn:Hins; intros H;
    inversion H; subst; auto.
  right. split; [|reflexivity].
  apply insert_medical_record_done in Hins as (t & _ & -> & _).
  apply next_rowid_positive.
Qed.

Lemma schedule_appointment_cases
  (pid : Z) (date purpose status : option string) (d d' : db) (id : Z) :
  schedule_appointment pid date purpose status d = (d', Returned id) ->
  (id = -1 /\ d' = d) \/
  (0 < id /\ insert_appointment pid date purpose status d = Done d' id).
Proof.
  unfold schedule_appointment.
  destruct (insert_appointment _ _ _ _ d) as [d1 n|e] eqn:Hins; intros H;
    inversion H; subst; auto.
  right. split; [|reflexivity].
  apply insert_appointment_done in Hins as (t & _ & -> & _).
  apply next_rowid_positive.
Qed.

(** An email that a stored patient has cannot be used again. *)
Lemma add_patient_email_taken
  (first last dob gender phone address blood : option string) (e : string) (d : db) :
  existsb (has_email e) (rows_of (patients d)) = true ->
  add_patient first last dob gender phone (Some e) address blood d
  = (d, Returned (-1)).
Proof.
  intros He. unfold add_patient, insert_patient.
  destruct (patients d) as [t|]; [|discriminate].
  simpl in He. unfold unique_email. rewrite He. simpl.
  now rewrite !andb_false_r.
Qed.

(** After [add_patient] has returned, with an id or with [-1], some patient
    has the email it was called with. *)
Lemma add_patient_email_present
  (first last dob gender phone address blood : option string) (e : string)
  (d d' : db) (id : Z) :
  check_in genders gender = true -> check_in blood_types blood = true ->
  first <> None -> last <> None -> dob <> None ->
  add_patient first last dob gender phone (Some e) address blood d
    = (d', Returned id) ->
  existsb (has_email e) (rows_of (patients d')) = true.
Proof.
  intros Hg Hb Hf Hl Hd. unfold add_patient, insert_patient.
  destruct (patients d) as [t|] eqn:Ht; [|discriminate].
  destruct first; [|congruence]. destruct last; [|congruence].
  destruct dob; [|congruence]. rewrite Hg, Hb. simpl.
  destruct (existsb (has_email e) (rows t)) eqn:He; simpl; intros H;
    inversion H; subst.
  - rewrite Ht. exact He.
  - simpl. rewrite existsb_app. simpl. unfold has_email at 2. simpl.
    rewrite String.eqb_refl. now rewrite orb_true_r.
Qed.

End CoverageFacts.

(* ================================================================== *)
(** ** Further properties of the methods *)

Import CoverageFacts.





(** X3: [add_patient] is all or nothing.  When it returns, either it returned
    [-1] and the database is as it was, or it returned a positive id larger
    than the id of every patient stored before, and the database differs by
    exactly one row at the end of [patients], which carries that id. *)
Theorem add_patient_all_or_nothing
  (first last dob gender phone email address blood : option string)
  (d d' : db) (id : Z) :
  add_patient first last dob gender phone email address blood d
    = (d', Returned id) ->
  (id = -1 /\ d' = d) \/
  (0 < id /\
   (forall p, In p (rows_of (patients d)) -> Patients.patient_id p < id) /\
   (exists r, rows_of (patients d') = rows_of (patients d) ++ [r] /\
              Patients.patient_id r = id) /\
   medical_records d' = medical_records d /\
   appointments d' = appointments d /\
   foreign_keys d' = foreign_keys d).
Proof.
  intros H. apply add_patient_cases in H as [H | [Hpos H]]; [now left|right].
  apply insert_patient_done in H as (t & Ht & Hid & _ & ->).
  rewrite Ht. simpl. split; [exact Hpos|]. split.
  - intros p Hp. rewrite Hid. apply next_rowid_fresh. now apply in_map.
  - split; [|repeat split]. eexists. split; reflexivity.
Qed.

Lemma add_patient_all_or_nothing_witness :
  (2 = -1 /\ main_2 = main_1) \/
  (0 < 2 /\
   (forall p, In p (rows_of (patients main_1)) -> Patients.patient_id p < 2) /\
   (exists r, rows_of (patients main_2) = rows_of (patients main_1) ++ [r] /\
              Patients.patient_id r = 2) /\
   medical_records main_2 = medical_records main_1 /\
   appointments main_2 = appointments main_1 /\
   foreign_keys main_2 = foreign_keys main_1).
Proof.
  apply (add_patient_all_or_nothing (Some "Jane") (Some "Smith")
           (Some "1990-11-22") (Some "Female") (Some "555-0202")
           (Some "jane.smith@example.com") None (Some "A-") main_1 main_2 2).
  reflexivity.
Defined.

(** X4: [add_medical_record] is all or nothing.  When it returns [-1] the
    database is as it was; otherwise the id is positive and larger than the
    id of every record stored before, and the database differs by exactly
    one row at the end of [medical_records], which carries that id and the
    patient id given. *)
Theorem add_medical_record_all_or_nothing
  (pid : Z) (visit diagnosis treatment medications notes : option string)
  (d d' : db) (id : Z) :
  add_medical_record pid visit diagnosis treatment medications notes d
    = (d', Returned id) ->
  (id = -1 /\ d' = d) \/
  (0 < id /\
   (forall r, In r (rows_of (medical_records d)) -> MedicalRecords.record_id r < id) /\
   (exists r, rows_of (medical_records d') = rows_of (medical_records d) ++ [r] /\
              MedicalRecords.record_id r = id /\
              MedicalRecords.patient_id r = pid) /\
   patients d' = patients d /\
   appointments d' = appointments d /\
   foreign_keys d' = foreign_keys d).
Proof.
  intros H. apply add_medical_record_cases in H as [H | [Hpos H]]; [now left|right].
  apply insert_medical_record_done in H as (t & Ht & Hid & _ & ->).
  rewrite Ht. simpl. split; [exact Hpos|]. split.
  - intros r Hr. rewrite Hid. apply next_rowid_fresh. now apply in_map.
  - split; [|repeat split]. eexists. repeat split.
Qed.

Lemma add_medical_record_all_or_nothing_witness :
  (2 = -1 /\ main_4 = main_3) \/
  (0 < 2 /\
   (forall r, In r (rows_of (medical_records main_3)) ->
              MedicalRecords.record_id r < 2) /\
   (exists r, rows_of (medical_records main_4)
              = rows_of (medical_records main_3) ++ [r] /\
              MedicalRecords.record_id r = 2 /\
              MedicalRecords.patient_id r = 1) /\
   patients main_4 = patients main_3 /\
   appointments main_4 = appointments main_3 /\
   foreign_keys main_4 = foreign_keys main_3).
Proof.
  apply (add_medical_record_all_or_nothing 1 (Some "2023-04-15")
           (Some "Annual checkup") None None
           (Some "Patient in good health, blood pressure controlled")
           main_3 main_4 2).
  reflexivity.
Defined.

Module UpdateFacts.

Lemma restatus_id (A : Z) (status : option string) (a : Appointments.row) :
  Appointments.appointment_id (restatus A status a) = Appointments.appointment_id a.
Proof. unfold restatus. now destruct (_ =? A). Qed.

Lemma restatus_patient (A : Z) (status : option string) (a : Appointments.row) :
  Appointments.patient_id (restatus A status a) = Appointments.patient_id a.
Proof. unfold restatus. now destruct (_ =? A). Qed.

Lemma restatus_date (A : Z) (status : option string) (a : Appointments.row) :
  Appointments.appointment_date (restatus A status a)
  = Appointments.appointment_date a.
Proof. unfold restatus. now destruct (_ =? A). Qed.

Lemma restatus_purpose (A : Z) (status : option string) (a : Appointments.row) :
  Appointments.purpose (restatus A status a) = Appointments.purpose a.
Proof. unfold restatus. now destruct (_ =? A). Qed.

Lemma restatus_twice (A : Z) (status : option string) (a : Appointments.row) :
  restatus A status (restatus A status a) = restatus A status a.
Proof.
  unfold restatus. destruct (Appointments.appointment_id a =? A) eqn:H; simpl.
  - now rewrite H.
  - now rewrite H.
Qed.

Lemma existsb_restatus (A : Z) (status : option string) (l : list Appointments.row) :
  existsb (fun a => Appointments.appointment_id a =? A) (map (restatus A status) l)
  = existsb (fun a => Appointments.appointment_id a =? A) l.
Proof.
  induction l as [|a l IH]; simpl; [reflexivity|].
  now rewrite restatus_id, IH.
Qed.

Lemma count_restatus (A : Z) (status : option string) (l : list Appointments.row) :
  List.length (filter (fun a => Appointments.appointment_id a =? A)
                 (map (restatus A status) l))
  = List.length (filter (fun a => Appointments.appointment_id a =? A) l).
Proof.
  induction l as [|a l IH]; simpl; [reflexivity|].
  rewrite restatus_id. destruct (_ =? A); simpl; now rewrite IH.
Qed.



(** What [update_appointment_status] does, case by case. *)
Lemma update_appointment_status_cases
  (A : Z) (status : option string) (d : db) :
  (update_appointment_status A status d = (d, Returned false)) \/
  (exists t,
      appointments d = Some t /\
      (existsb (fun a => Appointments.appointment_id a =? A) (rows t) = false
       \/ check_in statuses status = true) /\
      update_appointment_status A status d
      = ({| foreign_keys := foreign_keys d;
            patients := patients d;
            medical_records := medical_records d;
            appointments :=
              Some {| rows := map (restatus A status) (rows t); seq := seq t |} |},
         Returned
           (0 <? Z.of_nat
                   (List.length
                      (filter (fun a => Appointments.appointment_id a =? A)
                         (rows t)))))).
Proof.
  unfold update_appointment_status, update_status.
  destruct (appointments d) as [t|]; [|now left].
  destruct (existsb _ (rows t)) eqn:He; simpl.
  - destruct (check_in statuses status) eqn:Hc; simpl; [|now left].
    right. exists t. repeat split. now right.
  - right. exists t. repeat split. now left.
Qed.

Lemma filter_map_commute {A B : Type} (f : B -> bool) (g : A -> B) (l : list A) :
  filter f (map g l) = map g (filter (fun a => f (g a)) l).
Proof.
  induction l as [|a l IH]; simpl; [reflexivity|].
  destruct (f (g a)); simpl; now rewrite IH.
Qed.

Lemma insert_sorted_map {A B : Type} (leb : B -> B -> bool) (leb' : A -> A -> bool)
  (g : A -> B) (x : A) (l : list A) :
  (forall a b, leb (g a) (g b) = leb' a b) ->
  insert_sorted leb (g x) (map g l) = map g (insert_sorted leb' x l).
Proof.
  intros H. induction l as [|y l IH]; simpl; [reflexivity|].
  rewrite H. destruct (leb' x y); simpl; [reflexivity|]. now rewrite IH.
Qed.

Lemma sort_rows_map {A B : Type} (leb : B -> B -> bool) (leb' : A -> A -> bool)
  (g : A -> B) (l : list A) :
  (forall a b, leb (g a) (g b) = leb' a b) ->
  sort_rows leb (map g l) = map g (sort_rows leb' l).
Proof.
  intros H. induction l as [|x l IH]; simpl; [reflexivity|].
  rewrite IH. now apply insert_sorted_map.
Qed.

Lemma join_patients_map (g : Appointments.row -> Appointments.row)
  (la : list Appointments.row) (lp : list Patients.row) :
  (forall a, Appointments.patient_id (g a) = Appointments.patient_id a) ->
  join_patients (map g la) lp
  = map (fun ap => (g (fst ap), snd ap)) (join_patients la lp).
Proof.
  intros H. unfold join_patients. induction la as [|a la IH]; simpl; [reflexivity|].
  rewrite map_app, IH, H, map_map. reflexivity.
Qed.

End UpdateFacts.

Import UpdateFacts.


(** X6: [update_appointment_status] is idempotent: a second call with the
    same id and status leaves the database of the first call as it is and
    returns the same boolean. *)
Theorem update_appointment_status_twice
  (A : Z) (status : option string) (d : db) :
  update_appointment_status A status
    (fst (update_appointment_status A status d))
  = update_appointment_status A status d.
Proof.
  destruct (update_appointment_status_cases A status d)
    as [H | (t & Ht & Hok & H)]; rewrite H; simpl fst; [exact H|].
  unfold update_appointment_status, update_status. simpl.
  change (fun a => if Appointments.appointment_id a =? A
                   then set_status status a else a)
    with (restatus A status).
  rewrite existsb_restatus, count_restatus, map_map.
  replace (existsb (fun a => Appointments.appointment_id a =? A) (rows t)
           && negb (check_in statuses status)) with false.
  - f_equal. f_equal. f_equal. f_equal.
    apply map_ext. intros a. apply restatus_twice.
  - symmetry. destruct Hok as [-> | ->]; [reflexivity|apply andb_false_r].
Qed.

(** X7: [update_appointment_status] touches nothing but the status.  The
    patients and the medical records are as before; the appointments are as
    many, in the same order, with the same ids, patient ids, dates and
    purposes; an appointment with another id is not changed at all. *)
Theorem update_appointment_status_frame
  (A : Z) (status : option string) (d : db) :
  let d' := fst (update_appointment_status A status d) in
  patients d' = patients d /\
  medical_records d' = medical_records d /\
  foreign_keys d' = foreign_keys d /\
  map Appointments.appointment_id (rows_of (appointments d'))
  = map Appointments.appointment_id (rows_of (appointments d)) /\
  map Appointments.patient_id (rows_of (appointments d'))
  = map Appointments.patient_id (rows_of (appointments d)) /\
  map Appointments.appointment_date (rows_of (appointments d'))
  = map Appointments.appointment_date (rows_of (appointments d)) /\
  map Appointments.purpose (rows_of (appointments d'))
  = map Appointments.purpose (rows_of (appointments d)) /\
  filter (fun a => negb (Appointments.appointment_id a =? A))
    (rows_of (appointments d'))
  = filter (fun a => negb (Appointments.appointment_id a =? A))
      (rows_of (appointments d)).
Proof.
  destruct (update_appointment_status_cases A status d)
    as [H | (t & Ht & Hok & H)]; rewrite H; simpl; [repeat split|].
  rewrite Ht. simpl. rewrite !map_map. repeat split.
  - apply map_ext. intros a. apply restatus_id.
  - apply map_ext. intros a. apply restatus_patient.
  - apply map_ext. intros a. apply restatus_date.
  - apply map_ext. intros a. apply restatus_purpose.
  - clear H Hok Ht. induction (rows t) as [|a l IH]; simpl; [reflexivity|].
    rewrite restatus_id. unfold restatus at 1.
    destruct (Appointments.appointment_id a =? A); simpl; now rewrite IH.
Qed.

(** X8: after [update_appointment_status] has returned true for the id [A],
    the listing of upcoming appointments is the listing of before with the
    new status in the entries of appointment [A], and nothing else changed:
    the same entries in the same order. *)
Theorem update_appointment_status_listed
  (now : clock) (days_ahead A : Z) (status : option string) (d d' : db) :
  update_appointment_status A status d = (d', Returned true) ->
  get_upcoming_appointments now days_ahead d'
  = match get_upcoming_appointments now days_ahead d with
    | Returned l =>
        Returned
          (map (fun e => if Upcoming.appointment_id e =? A
                         then with_status status e else e) l)
    | Raised e => Raised e
    end.
Proof.
  intros Hcall.
  destruct (update_appointment_status_cases A status d)
    as [H | (t & Ht & Hok & H)]; rewrite H in Hcall; [discriminate|].
  injection Hcall as <- _. unfold get_upcoming_appointments. simpl. rewrite Ht.
  destruct (patients d) as [tp|]; [|reflexivity]. f_equal.
  rewrite join_patients_map by (intros a; apply restatus_patient).
  rewrite filter_map_commute. unfold order_by_asc.
  rewrite (sort_rows_map _
             (fun a b : Appointments.row * Patients.row =>
                value_leb (Appointments.appointment_date (fst a))
                  (Appointments.appointment_date (fst b))))
    by (intros a b; simpl; now rewrite !restatus_date).
  rewrite !map_map.
  erewrite filter_ext.
  - apply map_ext. intros [a p]. simpl. unfold restatus.
    destruct (Appointments.appointment_id a =? A); reflexivity.
  - intros [a p]. simpl. now rewrite restatus_date.
Qed.

Lemma update_appointment_status_listed_witness :
  get_upcoming_appointments october_clock 30
    (fst (update_appointment_status 1 (Some "Completed") main_6))
  = match get_upcoming_appointments october_clock 30 main_6 with
    | Returned l =>
        Returned
          (map (fun e => if Upcoming.appointment_id e =? 1
                         then with_status (Some "Completed") e else e) l)
    | Raised e => Raised e
    end.
Proof.
  apply (update_appointment_status_listed october_clock 30 1 (Some "Completed")
           main_6 (fst (update_appointment_status 1 (Some "Completed") main_6))).
  reflexivity.
Defined.

Module InvariantFacts.

Lemma numeric_affinity_not_null (s : string) : numeric_affinity s <> VNull.
Proof.
  unfold numeric_affinity. destruct (scan_number s); [|discriminate].
  destruct (_ && _); discriminate.
Qed.

Lemma store_numeric_not_null (a : option string) :
  a <> None -> store_numeric a <> VNull.
Proof.
  destruct a as [s|]; [|congruence]. intros _. apply numeric_affinity_not_null.
Qed.

Lemma NoDup_snoc {A : Type} (l : list A) (x : A) :
  NoDup l -> ~ In x l -> NoDup (l ++ [x]).
Proof.
  intros Hl Hx. apply NoDup_app; [exact Hl|repeat constructor; simpl; tauto|].
  intros y Hy [<- | []]. contradiction.
Qed.

Lemma fresh_key_not_in (ids : list Z) (s : Z) : ~ In (next_rowid ids s) ids.
Proof. intros H. apply (next_rowid_fresh ids s) in H. lia. Qed.

(** One step of each writing method: nothing, or one checked row more. *)
Lemma add_patient_step
  (first last dob gender phone email address blood : option string) (d : db) :
  fst (add_patient first last dob gender phone email address blood d) = d \/
  exists t r,
    patients d = Some t /\
    Patients.patient_id r = next_rowid (map Patients.patient_id (rows t)) (seq t) /\
    patient_ok r /\
    fst (add_patient first last dob gender phone email address blood d)
    = {| foreign_keys := foreign_keys d;
         patients :=
           Some {| rows := rows t ++ [r];
                   seq := next_rowid (map Patients.patient_id (rows t)) (seq t) |};
         medical_records := medical_records d;
         appointments := appointments d |}.
Proof.
  unfold add_patient, insert_patient. destruct (patients d) as [t|]; [|now left].
  destruct first as [f|]; [|now left]. destruct last as [l|]; [|now left].
  destruct dob as [b|]; [|now left]. simpl.
  destruct (check_in genders gender) eqn:Hg; [|now left].
  destruct (check_in blood_types blood) eqn:Hb; [|now left].
  destruct (unique_email email (rows t)); [|now left]. simpl.
  right. exists t. eexists. split; [reflexivity|]. split; [|split]. 3: reflexivity.
  - reflexivity.
  - unfold patient_ok; simpl. repeat split; try discriminate; try assumption.
    apply numeric_affinity_not_null.
Qed.

Lemma add_medical_record_step
  (pid : Z) (visit diagnosis treatment medications notes : option string) (d : db) :
  fst (add_medical_record pid visit diagnosis treatment medications notes d) = d \/
  exists t r,
    medical_records d = Some t /\
    MedicalRecords.record_id r
    = next_rowid (map MedicalRecords.record_id (rows t)) (seq t) /\
    record_ok r /\
    fst (add_medical_record pid visit diagnosis treatment medications notes d)
    = {| foreign_keys := foreign_keys d;
         patients := patients d;
         medical_records :=
           Some {| rows := rows t ++ [r];
                   seq := next_rowid (map MedicalRecords.record_id (rows t)) (seq t) |};
         appointments := appointments d |}.
Proof.
  unfold add_medical_record, insert_medical_record.
  destruct (medical_records d) as [t|]; [|now left].
  destruct visit as [v|]; [|now left]. simpl.
  destruct (foreign_key_ok d pid); [|now left]. simpl.
  right. exists t. eexists. split; [reflexivity|]. split; [|split]. 3: reflexivity.
  - reflexivity.
  - unfold record_ok; simpl. apply numeric_affinity_not_null.
Qed.

Lemma schedule_appointment_step
  (pid : Z) (date purpose status : option string) (d : db) :
  fst (schedule_appointment pid date purpose status d) = d \/
  exists t a,
    appointments d = Some t /\
    Appointments.appointment_id a
    = next_rowid (map Appointments.appointment_id (rows t)) (seq t) /\
    appointment_ok a /\
    fst (schedule_appointment pid date purpose status d)
    = {| foreign_keys := foreign_keys d;
         patients := patients d;
         medical_records := medical_records d;
         appointments :=
           Some {| rows := rows t ++ [a];
                   seq := next_rowid (map Appointments.appointment_id (rows t))
                            (seq t) |} |}.
Proof.
  unfold schedule_appointment, insert_appointment.
  destruct (appointments d) as [t|]; [|now left].
  destruct date as [v|]; [|now left]. simpl.
  destruct (check_in statuses status) eqn:Hs; [|now left].
  destruct (foreign_key_ok d pid); [|now left]. simpl.
  right. exists t. eexists. split; [reflexivity|]. split; [|split]. 3: reflexivity.
  - reflexivity.
  - unfold appointment_ok; simpl. split; [apply numeric_affinity_not_null|exact Hs].
Qed.

Lemma restatus_ok (A : Z) (status : option string) (l : list Appointments.row) :
  existsb (fun a => Appointments.appointment_id a =? A) l = false
  \/ check_in statuses status = true ->
  Forall appointment_ok l -> Forall appointment_ok (map (restatus A status) l).
Proof.
  intros Hok Hl. induction Hl as [|a l Ha Hl IH]; simpl; constructor.
  - unfold restatus. destruct (Appointments.appointment_id a =? A) eqn:Hid; [|exact Ha].
    destruct Hok as [He | Hs]; [simpl in He; rewrite Hid in He; discriminate|].
    destruct Ha as [Hd _]. split; [exact Hd|exact Hs].
  - apply IH. destruct Hok as [He | Hs]; [left|now right].
    simpl in He. now apply orb_false_iff in He.
Qed.

(** In every state of the class the keys of each table are positive and
    pairwise distinct, and every stored row satisfies the column constraints
    of its table. *)
Lemma reachable_tables (d : db) :
  reachable d -> keys_distinct d /\ keys_positive d /\ constraints_hold d.
Proof.
  unfold keys_distinct, keys_positive, constraints_hold.
  induction 1 as [| first last dob gender phone email address blood d _ IH
                  | pid visit diagnosis treatment medications notes d _ IH
                  | pid date purpose status d _ IH
                  | id status d _ IH].
  - simpl. repeat split; constructor.
  - destruct (add_patient_step first last dob gender phone email address blood d)
      as [-> | (t & r & Ht & Hid & Hr & ->)]; [exact IH|].
    rewrite Ht in IH. simpl in *.
    destruct IH as ((N1 & N2 & N3) & (P1 & P2 & P3) & (C1 & C2 & C3)).
    repeat split; try assumption.
    + rewrite map_app. simpl. apply NoDup_snoc; [exact N1|].
      rewrite Hid. apply fresh_key_not_in.
    + apply Forall_app. split; [exact P1|]. constructor; [|constructor].
      rewrite Hid. apply next_rowid_positive.
    + apply Forall_app. split; [exact C1|]. now constructor.
  - destruct (add_medical_record_step pid visit diagnosis treatment medications
                notes d) as [-> | (t & r & Ht & Hid & Hr & ->)]; [exact IH|].
    rewrite Ht in IH. simpl in *.
    destruct IH as ((N1 & N2 & N3) & (P1 & P2 & P3) & (C1 & C2 & C3)).
    repeat split; try assumption.
    + rewrite map_app. simpl. apply NoDup_snoc; [exact N2|].
      rewrite Hid. apply fresh_key_not_in.
    + apply Forall_app. split; [exact P2|]. constructor; [|constructor].
      rewrite Hid. apply next_rowid_positive.
    + apply Forall_app. split; [exact C2|]. now constructor.
  - destruct (schedule_appointment_step pid date purpose status d)
      as [-> | (t & a & Ht & Hid & Hr & ->)]; [exact IH|].
    rewrite Ht in IH. simpl in *.
    destruct IH as ((N1 & N2 & N3) & (P1 & P2 & P3) & (C1 & C2 & C3)).
    repeat split; try assumption.
    + rewrite map_app. simpl. apply NoDup_snoc; [exact N3|].
      rewrite Hid. apply fresh_key_not_in.
    + apply Forall_app. split; [exact P3|]. constructor; [|constructor].
      rewrite Hid. apply next_rowid_positive.
    + apply Forall_app. split; [exact C3|]. now constructor.
  - destruct (update_appointment_status_cases id status d)
      as [H | (t & Ht & Hok & H)]; rewrite H; simpl; [exact IH|].
    rewrite Ht in IH. simpl in *.
    destruct IH as ((N1 & N2 & N3) & (P1 & P2 & P3) & (C1 & C2 & C3)).
    repeat split; try assumption.
    + rewrite map_map.
      erewrite map_ext; [exact N3|]. intros a. apply restatus_id.
    + rewrite Forall_map. eapply Forall_impl; [|exact P3].
      intros a Ha. now rewrite restatus_id.
    + now apply restatus_ok.
Qed.


Lemma main_6_reachable : reachable main_6.
Proof. unfold main_6, main_5, main_4, main_3, main_2, main_1, main_0. repeat constructor. Qed.

End InvariantFacts.

Import InvariantFacts.

(** X9: in every state of the class (the one [__init__] leaves on a new
    file, and every state the writing methods lead to) the ids of the
    patients are positive and pairwise distinct, and so are the ids of the
    medical records and the ids of the appointments. *)
Theorem reachable_keys (d : db) :
  reachable d -> keys_distinct d /\ keys_positive d.
Proof. intros H. apply reachable_tables in H. tauto. Qed.

Lemma reachable_keys_witness : keys_distinct main_6 /\ keys_positive main_6.
Proof. exact (reachable_keys main_6 main_6_reachable). Defined.

(** X10: in every state of the class every stored row satisfies the column
    constraints of the schema: a patient has a first name, a last name and a
    date of birth, a gender that is null or in its enumeration and a blood
    type that is null or in its enumeration; a medical record has a visit
    date; an appointment has a date and a status that is null or in its
    enumeration, also after [update_appointment_status]. *)
Theorem reachable_constraints (d : db) : reachable d -> constraints_hold d.
Proof. intros H. apply reachable_tables in H. tauto. Qed.

Lemma reachable_constraints_witness : constraints_hold main_6.
Proof. exact (reachable_constraints main_6 main_6_reachable). Defined.



Module DateFacts.

Lemma digit_not_space (c : ascii) : is_digit c = true -> is_space c = false.
Proof.
  unfold is_digit, is_space. intros H. apply andb_true_iff in H as [H1 H2].
  apply Z.leb_le in H1. apply Z.leb_le in H2.
  apply orb_false_iff. split; [apply Z.eqb_neq; lia|].
  apply andb_false_iff. right. apply Z.leb_gt. lia.
Qed.

Lemma scan_sign_digit (c : ascii) (s : list ascii) :
  is_digit c = true -> scan_sign (c :: s) = (false, c :: s).
Proof.
  destruct c as [[|] [|] [|] [|] [|] [|] [|] [|]]; try reflexivity;
    intros H; vm_compute in H; discriminate.
Qed.

(** The leading digits are read, and the scan stops at the first character
    that is not one. *)
Lemma scan_digits_then_other (s : list ascii) (seen : bool) (acc : Z) (n : nat) :
  digits_then_other s seen = true ->
  (seen = true -> (0 < n)%nat) ->
  exists acc' n' x rest,
    scan_digits s acc n = (acc', S n', x :: rest) /\
    is_space x = false /\ code x <> 46 /\ code x <> 101 /\ code x <> 69.
Proof.
  revert seen acc n. induction s as [|c s IH]; intros seen acc n; simpl;
    [discriminate|].
  destruct (is_digit c) eqn:Hd.
  - intros H _. apply (IH true); [exact H|]. intros _. apply Nat.lt_0_succ.
  - intros H Hn. repeat (apply andb_true_iff in H as [H ?]).
    destruct n as [|n']; [specialize (Hn H); inversion Hn|].
    exists acc, n', c, s. split; [reflexivity|].
    repeat split; try (apply Z.eqb_neq, negb_true_iff; assumption).
    now apply negb_true_iff.
Qed.

(** Text of the shape of a date is not a number: the column stores it as it
    is. *)
Lemma date_like_not_number (s : string) :
  date_like s = true -> scan_number s = None.
Proof.
  unfold date_like, scan_number. destruct (chars s) as [|c l] eqn:Hs; [discriminate|].
  intros H. assert (Hc : is_digit c = true).
  { simpl in H. destruct (is_digit c); [reflexivity|discriminate]. }
  cbn [skip_spaces]. rewrite (digit_not_space c Hc), (scan_sign_digit c l Hc).
  destruct (scan_digits_then_other (c :: l) false 0 0%nat H)
    as (acc & n & x & rest & Hscan & Hsp & H46 & H101 & H69); [discriminate|].
  rewrite Hscan. clear Hscan H Hs.
  destruct x as [[|] [|] [|] [|] [|] [|] [|] [|]];
    try reflexivity;
    try (exfalso; apply H46; reflexivity);
    try (exfalso; apply H101; reflexivity);
    try (exfalso; apply H69; reflexivity);
    try (vm_compute in Hsp; discriminate).
Qed.

Lemma date_like_kept (s : string) :
  date_like s = true -> numeric_affinity s = VText s.
Proof.
  intros H. unfold numeric_affinity. now rewrite (date_like_not_number s H).
Qed.

Lemma find_app_found {A : Type} (f : A -> bool) (l l' : list A) (x : A) :
  find f l = Some x -> find f (l ++ l') = Some x.
Proof.
  induction l as [|y l IH]; simpl; [discriminate|].
  destruct (f y); [trivial|exact IH].
Qed.

Lemma find_of_member {A : Type} (f : A -> bool) (l : list A) (x : A) :
  In x l -> f x = true -> exists y, find f l = Some y.
Proof.
  induction l as [|z l IH]; simpl; [tauto|].
  intros [-> | Hin] Hx.
  - rewrite Hx. eauto.
  - destruct (f z); eauto.
Qed.

End DateFacts.

Import DateFacts.

(** X12: what [get_patient_by_id] returns for the id of a stored patient is
    not changed by any writing method: not by [add_patient], which only adds
    a row after the rows there are, and not by [add_medical_record],
    [schedule_appointment] or [update_appointment_status], which do not
    write to [patients]. *)
Theorem stored_patient_stays
  (id : Z) (p : Patients.row) (d : db)
  (first last dob gender phone email address blood : option string)
  (pid : Z) (visit diagnosis treatment medications notes : option string)
  (date purpose status : option string) (A : Z) :
  In p (rows_of (patients d)) ->
  Patients.patient_id p = id ->
  get_patient_by_id id
    (fst (add_patient first last dob gender phone email address blood d))
  = get_patient_by_id id d /\
  get_patient_by_id id
    (fst (add_medical_record pid visit diagnosis treatment medications notes d))
  = get_patient_by_id id d /\
  get_patient_by_id id (fst (schedule_appointment pid date purpose status d))
  = get_patient_by_id id d /\
  get_patient_by_id id (fst (update_appointment_status A status d))
  = get_patient_by_id id d.
Proof.
  intros Hin Hid. unfold get_patient_by_id.
  rewrite add_medical_record_patients, schedule_appointment_patients,
    update_appointment_status_patients.
  split; [|repeat split].
  destruct (add_patient_step first last dob gender phone email address blood d)
    as [-> | (t & r & Ht & _ & _ & ->)]; [reflexivity|].
  rewrite Ht in *. simpl in *. f_equal.
  destruct (find_of_member (fun q => Patients.patient_id q =? id) (rows t) p Hin)
    as (y & Hy); [now apply Z.eqb_eq|].
  rewrite Hy. now apply find_app_found.
Qed.

Lemma stored_patient_stays_witness :
  get_patient_by_id 1
    (fst (add_patient (Some "Ann") (Some "Lee") (Some "1970-01-01") None None
            None None None main_2))
  = get_patient_by_id 1 main_2 /\
  get_patient_by_id 1
    (fst (add_medical_record 1 (Some "2024-01-01") None None None None main_2))
  = get_patient_by_id 1 main_2 /\
  get_patient_by_id 1
    (fst (schedule_appointment 1 (Some "2024-01-01 10:00:00") None None main_2))
  = get_patient_by_id 1 main_2 /\
  get_patient_by_id 1 (fst (update_appointment_status 1 None main_2))
  = get_patient_by_id 1 main_2.
Proof.
  apply (stored_patient_stays 1
           {| Patients.patient_id := 1;
              Patients.first_name := Some "John";
              Patients.last_name := Some "Doe";
              Patients.date_of_birth := VText "1985-05-15";
              Patients.gender := Some "Male";
              Patients.phone := Some "555-0101";
              Patients.email := Some "john.doe@example.com";
              Patients.address := None;
              Patients.blood_type := Some "O+" |}
           main_2 (Some "Ann") (Some "Lee") (Some "1970-01-01") None None None
           None None 1 (Some "2024-01-01") None None None None
           (Some "2024-01-01 10:00:00") None None 1).
  - simpl. now left.
  - reflexivity.
Defined.



(** X14: a date of birth of the shape of a date, that is, text that begins
    with a digit and has something other than a blank, a point or the letter
    e right after its leading digits, as 1985-05-15 has, comes back from
    [get_patient_by_id] as exactly the text that [add_patient] was given. *)
Theorem add_patient_date_like_round_trip
  (first last : option string) (dob : string)
  (gender phone email address blood : option string) (d d' : db) (P : Z) :
  date_like dob = true ->
  add_patient first last (Some dob) gender phone email address blood d
    = (d', Returned P) ->
  P <> -1 ->
  exists r,
    get_patient_by_id P d' = Returned (Some r) /\
    Patients.date_of_birth r = VText dob.
Proof.
  intros Hshape Hcall HP.
  apply add_patient_cases in Hcall as [[H _] | [_ H]]; [contradiction|].
  apply insert_patient_done in H as (t & Ht & Hid & _ & ->).
  unfold get_patient_by_id. simpl. eexists. split.
  - f_equal. rewrite find_skip.
    + simpl. now rewrite Z.eqb_refl.
    + intros p Hp. apply Z.eqb_neq.
      pose proof (next_rowid_fresh (map Patients.patient_id (rows t)) (seq t)
                    (Patients.patient_id p) (in_map _ _ _ Hp)). lia.
  - simpl. now apply date_like_kept.
Qed.

Lemma add_patient_date_like_round_trip_witness :
  exists r,
    get_patient_by_id 1 main_1 = Returned (Some r) /\
    Patients.date_of_birth r = VText "1985-05-15".
Proof.
  apply (add_patient_date_like_round_trip (Some "John") (Some "Doe") "1985-05-15"
           (Some "Male") (Some "555-0101") (Some "john.doe@example.com") None
           (Some "O+") main_0 main_1 1).
  - reflexivity.
  - reflexivity.
  - lia.
Defined.

(** X15: with a clock that reads as [datetime('now')] does (text of the shape
    of a date), every appointment that [get_upcoming_appointments] lists has
    a date stored as text.  An appointment whose date was stored as a number,
    as happens to one scheduled for "20231020", is never listed, whatever the
    window. *)
Theorem get_upcoming_appointments_text_dates
  (now : clock) (days_ahead : Z) (d : db) (lo : string)
  (listed : list Upcoming.entry) :
  datetime_now now = VText lo ->
  date_like lo = true ->
  get_upcoming_appointments now days_ahead d = Returned listed ->
  Forall (fun e => exists s, Upcoming.appointment_date e = VText s) listed.
Proof.
  intros Hnow Hlo. unfold get_upcoming_appointments.
  destruct (appointments d) as [ta|]; [|discriminate].
  destruct (patients d) as [tp|]; [|discriminate].
  intros H. injection H as <-. rewrite Forall_map.
  eapply Permutation_Forall; [symmetry; apply order_by_asc_perm|].
  apply Forall_forall. intros [a p] Hin. apply filter_In in Hin as [_ Hw].
  unfold between in Hw. apply andb_true_iff in Hw as [Hw _].
  rewrite Hnow in Hw. simpl in Hw. rewrite (date_like_kept lo Hlo) in Hw.
  simpl. destruct (Appointments.appointment_date a) as [|z|q|s];
    try discriminate. eauto.
Qed.

Lemma get_upcoming_appointments_text_dates_witness :
  Forall (fun e => exists s, Upcoming.appointment_date e = VText s)
    (map upcoming_entry
       (order_by_asc (fun ap => Appointments.appointment_date (fst ap))
          (filter
             (fun ap =>
                between (Appointments.appointment_date (fst ap))
                  (datetime_now october_clock)
                  (datetime_now_shifted october_clock "+30 days"))
             (join_patients (rows_of (appointments window_db))
                (rows_of (patients window_db)))))).
Proof.
  apply (get_upcoming_appointments_text_dates october_clock 30 window_db
           "2023-10-01 00:00:00").
  - reflexivity.
  - reflexivity.
  - reflexivity.
Defined.

(** X16: when the engine cannot read the modifier that
    [get_upcoming_appointments] builds from [days_ahead] and gives null for
    the upper end of the window, as it does for [+-3 days], the method returns
    the empty list and raises nothing. *)
Theorem get_upcoming_appointments_no_upper_end
  (now : clock) (days_ahead : Z) (d : db) :
  schema_ready d ->
  datetime_now_shifted now ("+" ++ format_int days_ahead ++ " days")%string = VNull ->
  get_upcoming_appointments now days_ahead d = Returned [] /\
  (days_ahead < 0 ->
   exists n, ("+" ++ format_int days_ahead ++ " days")%string
             = ("+-" ++ n ++ " days")%string).
Proof.
  intros Hs Hnull. split; [now apply get_upcoming_appointments_null_bound|].
  intros Hneg. destruct days_ahead as [|p|p]; try lia.
  unfold format_int. simpl. eexists. reflexivity.
Qed.

Lemma get_upcoming_appointments_no_upper_end_witness :
  get_upcoming_appointments october_clock (-3) window_db = Returned [] /\
  (-3 < 0 ->
   exists n, ("+" ++ format_int (-3) ++ " days")%string
             = ("+-" ++ n ++ " days")%string).
Proof.
  apply (get_upcoming_appointments_no_upper_end october_clock (-3) window_db).
  - unfold schema_ready. simpl. repeat split; discriminate.
  - reflexivity.
Defined.

Module MainFacts.

Lemma main_writes_patients (p1 p2 : Z) (d : db) :
  patients (main_writes p1 p2 d) = patients d.
Proof.
  unfold main_writes.
  now rewrite !schedule_appointment_patients, !add_medical_record_patients.
Qed.

Lemma main_writes_schema_ready (p1 p2 : Z) (d : db) :
  schema_ready d -> schema_ready (main_writes p1 p2 d).
Proof.
  intros H. unfold main_writes.
  now apply schedule_appointment_schema_ready, schedule_appointment_schema_ready,
    add_medical_record_schema_ready, add_medical_record_schema_ready.
Qed.

Lemma main_writes_foreign_keys (p1 p2 : Z) (d : db) :
  foreign_keys (main_writes p1 p2 d) = foreign_keys d.
Proof.
  unfold main_writes.
  now rewrite !schedule_appointment_foreign_keys, !add_medical_record_foreign_keys.
Qed.

(** An email that a patient has is still there after [add_patient]. *)
Lemma add_patient_keeps_email
  (first last dob gender phone email address blood : option string)
  (e : string) (d : db) :
  existsb (has_email e) (rows_of (patients d)) = true ->
  existsb (has_email e)
    (rows_of (patients (fst (add_patient first last dob gender phone email
                               address blood d)))) = true.
Proof.
  intros H.
  destruct (add_patient_step first last dob gender phone email address blood d)
    as [-> | (t & r & Ht & _ & _ & ->)]; [exact H|].
  rewrite Ht in H. simpl in *. rewrite existsb_app, H. reflexivity.
Qed.

(** On a database of the class, opening it again changes nothing. *)
Lemma HealthcareDatabase_ready (d : db) :
  schema_ready d -> foreign_keys d = false -> HealthcareDatabase d = d.
Proof.
  intros (Hp & Hm & Ha) Hf. destruct d as [fk [tp|] [tm|] [ta|]]; simpl in *;
    try congruence. now subst fk.
Qed.

(** What a run of [main] leaves: the tables, no enforcement of foreign keys,
    and a patient for each of the two emails. *)
Lemma main_leaves (now : clock) (file d : db)
  (out : list Patients.row * list History.entry * list Upcoming.entry) :
  main now file = Returned (d, out) ->
  schema_ready d /\ foreign_keys d = false /\
  existsb (has_email "john.doe@example.com") (rows_of (patients d)) = true /\
  existsb (has_email "jane.smith@example.com") (rows_of (patients d)) = true.
Proof.
  unfold main.
  destruct (add_patient (Some "John") _ _ _ _ _ _ _ (HealthcareDatabase file))
    as [d1 [p1|e1]] eqn:E1; [|discriminate]. cbn [bind].
  destruct (add_patient (Some "Jane") _ _ _ _ _ _ _ d1)
    as [d2 [p2|e2]] eqn:E2; [|discriminate]. cbn [bind].
  destruct (search_patients _ _ _); [|discriminate]. cbn [bind].
  destruct (get_patient_medical_history _ _); [|discriminate]. cbn [bind].
  destruct (get_upcoming_appointments _ _ _); [|discriminate]. cbn [bind].
  intros H. injection H as <- _.
  assert (H1 : d1 = fst (add_patient (Some "John") (Some "Doe") (Some "1985-05-15")
                           (Some "Male") (Some "555-0101")
                           (Some "john.doe@example.com") None (Some "O+")
                           (HealthcareDatabase file))) by now rewrite E1.
  assert (H2 : d2 = fst (add_patient (Some "Jane") (Some "Smith") (Some "1990-11-22")
                           (Some "Female") (Some "555-0202")
                           (Some "jane.smith@example.com") None (Some "A-") d1))
    by now rewrite E2.
  split; [|split; [|split]].
  - apply main_writes_schema_ready. rewrite H2.
    apply add_patient_schema_ready. rewrite H1.
    apply add_patient_schema_ready, HealthcareDatabase_schema_ready.
  - rewrite main_writes_foreign_keys, H2, add_patient_foreign_keys, H1,
      add_patient_foreign_keys. reflexivity.
  - rewrite main_writes_patients, H2. apply add_patient_keeps_email.
    apply (add_patient_email_present (Some "John") (Some "Doe") (Some "1985-05-15")
             (Some "Male") (Some "555-0101") None (Some "O+") _
             (HealthcareDatabase file) d1 p1);
      try reflexivity; try discriminate. exact E1.
  - rewrite main_writes_patients.
    apply (add_patient_email_present (Some "Jane") (Some "Smith") (Some "1990-11-22")
             (Some "Female") (Some "555-0202") None (Some "A-") _ d1 d2 p2);
      try reflexivity; try discriminate. exact E2.
Qed.

(** A run of [main] on a database of the class that has a patient for each
    of the two emails: both [add_patient] calls return [-1], and the records
    and the appointments are filed under the patient id [-1]. *)
Lemma main_on_seeded (now : clock) (d : db) :
  schema_ready d -> foreign_keys d = false ->
  existsb (has_email "john.doe@example.com") (rows_of (patients d)) = true ->
  existsb (has_email "jane.smith@example.com") (rows_of (patients d)) = true ->
  exists d' out,
    main now d = Returned (d', out) /\
    d' = main_writes (-1) (-1) d /\
    patients d' = patients d /\
    (exists r1 r2,
        rows_of (medical_records d') = rows_of (medical_records d) ++ [r1; r2] /\
        MedicalRecords.patient_id r1 = -1 /\ MedicalRecords.patient_id r2 = -1) /\
    (exists a1 a2,
        rows_of (appointments d') = rows_of (appointments d) ++ [a1; a2] /\
        Appointments.patient_id a1 = -1 /\ Appointments.patient_id a2 = -1).
Proof.
  intros Hs Hf Hjohn Hjane. unfold main.
  rewrite (HealthcareDatabase_ready d Hs Hf).
  rewrite (add_patient_email_taken _ _ _ _ _ _ _ _ d Hjohn). cbn [bind].
  rewrite (add_patient_email_taken _ _ _ _ _ _ _ _ d Hjane). cbn [bind].
  destruct Hs as (Hp & Hm & Ha).
  destruct d as [fk [tp|] [tm|] [ta|]]; simpl in Hp, Hm, Ha, Hf; try congruence.
  subst fk. do 2 eexists. split; [reflexivity|]. split; [reflexivity|].
  split; [reflexivity|]. split.
  - do 2 eexists. simpl. rewrite <- app_assoc. simpl. repeat split.
  - do 2 eexists. simpl. rewrite <- app_assoc. simpl. repeat split.
Qed.

End MainFacts.

Import MainFacts.

(** X17: running [main] a second time on the database that a first run left.
    The two [add_patient] calls now find their emails taken and return [-1];
    [main] passes the [-1] on as a patient id, and the two medical records
    and the two appointments are stored once more, under the patient id
    [-1].  The patients are as the first run left them, and the run raises
    nothing. *)
Theorem main_second_run
  (now now' : clock) (file d : db)
  (out : list Patients.row * list History.entry * list Upcoming.entry) :
  main now file = Returned (d, out) ->
  exists d' out',
    main now' d = Returned (d', out') /\
    patients d' = patients d /\
    (exists r1 r2,
        rows_of (medical_records d') = rows_of (medical_records d) ++ [r1; r2] /\
        MedicalRecords.patient_id r1 = -1 /\ MedicalRecords.patient_id r2 = -1) /\
    (exists a1 a2,
        rows_of (appointments d') = rows_of (appointments d) ++ [a1; a2] /\
        Appointments.patient_id a1 = -1 /\ Appointments.patient_id a2 = -1).
Proof.
  intros H. apply main_leaves in H as (Hs & Hf & Hjohn & Hjane).
  destruct (main_on_seeded now' d Hs Hf Hjohn Hjane)
    as (d' & out' & Hrun & _ & Hp & Hm & Ha).
  exists d', out'. auto.
Qed.

Lemma main_second_run_witness :
  exists d' out',
    main october_clock main_6 = Returned (d', out') /\
    patients d' = patients main_6 /\
    (exists r1 r2,
        rows_of (medical_records d') = rows_of (medical_records main_6) ++ [r1; r2] /\
        MedicalRecords.patient_id r1 = -1 /\ MedicalRecords.patient_id r2 = -1) /\
    (exists a1 a2,
        rows_of (appointments d') = rows_of (appointments main_6) ++ [a1; a2] /\
        Appointments.patient_id a1 = -1 /\ Appointments.patient_id a2 = -1).
Proof.
  exact (main_second_run october_clock october_clock new_file main_6 _ eq_refl).
Defined.

(** X18: [__init__] on any file, with tables or without.  Afterwards the
    three tables exist, the connection does not enforce foreign keys, every
    row that was in the file is still there, and a table that was missing is
    empty; opening the result again changes nothing. *)
Theorem HealthcareDatabase_opens (file : db) :
  schema_ready (HealthcareDatabase file) /\
  foreign_keys (HealthcareDatabase file) = false /\
  rows_of (patients (HealthcareDatabase file)) = rows_of (patients file) /\
  rows_of (medical_records (HealthcareDatabase file))
  = rows_of (medical_records file) /\
  rows_of (appointments (HealthcareDatabase file)) = rows_of (appointments file) /\
  HealthcareDatabase (HealthcareDatabase file) = HealthcareDatabase file.
Proof.
  split; [apply HealthcareDatabase_schema_ready|].
  destruct file as [fk [tp|] [tm|] [ta|]]; repeat split.
Qed.

(** X19: on a database with the [patients] table, [add_patient] with no
    first name, no last name or no date of birth, or with a gender or a blood
    type that is given and is not in its enumeration, returns [-1] and leaves
    the database as it was. *)
Theorem add_patient_rejected
  (first last dob gender phone email address blood : option string) (d : db) :
  patients d <> None ->
  first = None \/ last = None \/ dob = None \/
  check_in genders gender = false \/ check_in blood_types blood = false ->
  add_patient first last dob gender phone email address blood d
  = (d, Returned (-1)).
Proof.
  intros Ht [H | [H | [H | H]]].
  - apply add_patient_not_null; auto.
  - apply add_patient_not_null; auto.
  - apply add_patient_not_null; auto.
  - now apply add_patient_enumerations.
Qed.

Lemma add_patient_rejected_witness :
  add_patient (Some "Max") (Some "Roe") (Some "2001-02-03") (Some "male")
    None None None (Some "O+") main_2
  = (main_2, Returned (-1)).
Proof.
  apply (add_patient_rejected (Some "Max") (Some "Roe") (Some "2001-02-03")
           (Some "male") None None None (Some "O+") main_2).
  - discriminate.
  - right. right. right. left. reflexivity.
Defined.

(** X20: what each method does when its table is missing from the file.
    [add_patient] catches integrity errors only, so the error of the engine
    goes through to the caller; [add_medical_record] and
    [schedule_appointment] catch every error of the engine and return [-1],
    [update_appointment_status] returns false; the four reading methods
    catch nothing and raise.  No method changes the file. *)
Theorem missing_table
  (first last dob gender phone email address blood : option string)
  (pid : Z) (visit diagnosis treatment medications notes : option string)
  (date purpose status name : option string) (A days_ahead : Z) (now : clock)
  (d : db) :
  patients d = None -> medical_records d = None -> appointments d = None ->
  add_patient first last dob gender phone email address blood d
  = (d, Raised OperationalError) /\
  add_medical_record pid visit diagnosis treatment medications notes d
  = (d, Returned (-1)) /\
  schedule_appointment pid date purpose status d = (d, Returned (-1)) /\
  update_appointment_status A status d = (d, Returned false) /\
  get_patient_by_id pid d = Raised OperationalError /\
  search_patients name gender d = Raised OperationalError /\
  get_patient_medical_history pid d = Raised OperationalError /\
  get_upcoming_appointments now days_ahead d = Raised OperationalError.
Proof.
  intros Hp Hm Ha.
  unfold add_patient, insert_patient, add_medical_record, insert_medical_record,
    schedule_appointment, insert_appointment, update_appointment_status,
    update_status, get_patient_by_id, search_patients,
    get_patient_medical_history, get_upcoming_appointments.
  rewrite Hp, Hm, Ha. repeat split.
Qed.

Lemma missing_table_witness :
  add_patient (Some "John") (Some "Doe") (Some "1985-05-15") (Some "Male")
    None None None None new_file
  = (new_file, Raised OperationalError) /\
  add_medical_record 1 (Some "2023-01-10") None None None None new_file
  = (new_file, Returned (-1)) /\
  schedule_appointment 1 (Some "2023-10-20 09:30:00") None (Some "Scheduled")
    new_file = (new_file, Returned (-1)) /\
  update_appointment_status 1 (Some "Scheduled") new_file
  = (new_file, Returned false) /\
  get_patient_by_id 1 new_file = Raised OperationalError /\
  search_patients (Some "Doe") (Some "Male") new_file = Raised OperationalError /\
  get_patient_medical_history 1 new_file = Raised OperationalError /\
  get_upcoming_appointments october_clock 30 new_file = Raised OperationalError.
Proof.
  exact (missing_table (Some "John") (Some "Doe") (Some "1985-05-15")
           (Some "Male") None None None None 1 (Some "2023-01-10") None None
           None None (Some "2023-10-20 09:30:00") None (Some "Scheduled")
           (Some "Doe") 1 30 october_clock new_file eq_refl eq_refl eq_refl).
Defined.

(** X21: in every state of the class no two patients have the same email:
    the non-null emails of the stored patients are pairwise distinct. *)
Theorem reachable_emails_unique (d : db) : reachable d -> emails_unique d.
Proof. intros H. now apply reachable_invariant in H. Qed.

Lemma reachable_emails_unique_witness : emails_unique main_6.
Proof. exact (reachable_emails_unique main_6 main_6_reachable). Defined.



(** X23: in every state of the class each entry that
    [get_upcoming_appointments] lists belongs to a stored appointment and to
    the stored patient that the appointment refers to, and its patient name
    is that patient's first name, a blank, and the last name; the text
    "None" never stands in for a name. *)
Theorem get_upcoming_appointments_names
  (now : clock) (days_ahead : Z) (d : db) (listed : list Upcoming.entry) :
  reachable d ->
  get_upcoming_appointments now days_ahead d = Returned listed ->
  Forall
    (fun e =>
       exists a p first last,
         In a (rows_of (appointments d)) /\
         In p (rows_of (patients d)) /\
         Appointments.patient_id a = Patients.patient_id p /\
         Upcoming.appointment_id e = Appointments.appointment_id a /\
         Patients.first_name p = Some first /\
         Patients.last_name p = Some last /\
         Upcoming.patient_name e = (first ++ " " ++ last)%string)
    listed.
Proof.
  intros Hr. pose proof (reachable_tables d Hr) as (_ & _ & (Hok & _)).
  unfold get_upcoming_appointments.
  destruct (appointments d) as [ta|]; [|discriminate].
  destruct (patients d) as [tp|]; [|discriminate].
  simpl in *. intros H. injection H as <-. rewrite Forall_map.
  eapply Permutation_Forall; [symmetry; apply order_by_asc_perm|].
  apply Forall_forall. intros [a p] Hin. apply filter_In in Hin as [Hin _].
  unfold join_patients in Hin. apply in_flat_map in Hin as (a' & Ha & Hin).
  apply in_map_iff in Hin as (p' & Heq & Hp). injection Heq as -> ->.
  apply filter_In in Hp as [Hp He]. apply Z.eqb_eq in He.
  rewrite Forall_forall in Hok. destruct (Hok p Hp) as (Hf & Hl & _).
  destruct (Patients.first_name p) as [f|] eqn:Ef; [|congruence].
  destruct (Patients.last_name p) as [l|] eqn:El; [|congruence].
  exists a, p, f, l. simpl. rewrite Ef, El. repeat split; assumption.
Qed.

Lemma get_upcoming_appointments_names_witness :
  Forall
    (fun e =>
       exists a p first last,
         In a (rows_of (appointments main_6)) /\
         In p (rows_of (patients main_6)) /\
         Appointments.patient_id a = Patients.patient_id p /\
         Upcoming.appointment_id e = Appointments.appointment_id a /\
         Patients.first_name p = Some first /\
         Patients.last_name p = Some last /\
         Upcoming.patient_name e = (first ++ " " ++ last)%string)
    (map upcoming_entry
       (order_by_asc (fun ap => Appointments.appointment_date (fst ap))
          (filter
             (fun ap =>
                between (Appointments.appointment_date (fst ap))
                  (datetime_now october_clock)
                  (datetime_now_shifted october_clock "+30 days"))
             (join_patients (rows_of (appointments main_6))
                (rows_of (patients main_6)))))).
Proof.
  exact (get_upcoming_appointments_names october_clock 30 main_6 _
           main_6_reachable eq_refl).
Defined.
